(** * JGBF2: the Excel parser and consolidation pivot (multiple.py), the
      page scan, the grouping of the converted pages and the sheets of the
      page converter (new2.py), and the report file names and the pages of
      a run of the scraper (Scrape.py).

    Python values are embedded as follows.
    - A [str] is the list of its Unicode code points ([pystr]); literals are
      written as UTF-8 text and decoded by [py].  Slicing, [startswith],
      [in] and comparison then act on code points, as in Python.
    - A dict that is iterated ([.items()]) is an association list in
      insertion order; the pivot of the consolidation is a [gmap].
    - Code that can raise returns in the [result] type; [try]/[except]
      blocks are matches on it. *)

From Stdlib Require Import ZArith NArith List Ascii String Lia.
From Stdlib Require Import Numbers.DecimalString Numbers.DecimalZ Numbers.DecimalPos.
From stdpp Require Import gmap list sorting.

Open Scope N_scope.

(** ** Python strings *)

Module PyStr.

Abbreviation pystr := (list N).

Fixpoint bytes_of (s : string) : list N :=
  match s with
  | EmptyString => []
  | String a s' => N_of_ascii a :: bytes_of s'
  end.

(** UTF-8 decoding of the bytes of a literal (1 to 4 byte sequences). *)
Fixpoint utf8_decode (bs : list N) : pystr :=
  match bs with
  | [] => []
  | b :: r =>
      if b <? 128 then b :: utf8_decode r
      else if b <? 224 then
        match r with
        | b1 :: r' => ((b - 192) * 64 + (b1 - 128)) :: utf8_decode r'
        | _ => []
        end
      else if b <? 240 then
        match r with
        | b1 :: b2 :: r' =>
            ((b - 224) * 4096 + (b1 - 128) * 64 + (b2 - 128)) :: utf8_decode r'
        | _ => []
        end
      else
        match r with
        | b1 :: b2 :: b3 :: r' =>
            ((b - 240) * 262144 + (b1 - 128) * 4096 + (b2 - 128) * 64 + (b3 - 128))
              :: utf8_decode r'
        | _ => []
        end
  end.

Definition py (s : string) : pystr := utf8_decode (bytes_of s).

(** [s.startswith(p)] *)
Fixpoint startswith (p s : pystr) : bool :=
  match p, s with
  | [], _ => true
  | _ :: _, [] => false
  | a :: p', b :: s' => (a =? b) && startswith p' s'
  end.

(** [needle in hay] *)
Fixpoint str_in (needle hay : pystr) : bool :=
  startswith needle hay ||
  match hay with
  | [] => false
  | _ :: hay' => str_in needle hay'
  end.

(** [s.replace(old, new)] for a non-empty [old]: non-overlapping
    occurrences, leftmost first. *)
Fixpoint replace_from (old new : pystr) (skip : nat) (s : pystr) : pystr :=
  match s with
  | [] => []
  | c :: s' =>
      match skip with
      | S k => replace_from old new k s'
      | O =>
          if startswith old s
          then new ++ replace_from old new (length old - 1) s'
          else c :: replace_from old new 0 s'
      end
  end.

Definition replace (old new s : pystr) : pystr := replace_from old new 0 s.

(** [str.isspace] of one code point (CPython's [_PyUnicode_IsWhitespace]). *)
Definition isspace (c : N) : bool :=
  ((9 <=? c) && (c <=? 13)) || ((28 <=? c) && (c <=? 32)) ||
  (c =? 133) || (c =? 160) || (c =? 5760) ||
  ((8192 <=? c) && (c <=? 8202)) || (c =? 8232) || (c =? 8233) ||
  (c =? 8239) || (c =? 8287) || (c =? 12288).

Fixpoint lstrip (s : pystr) : pystr :=
  match s with
  | [] => []
  | c :: s' => if isspace c then lstrip s' else s
  end.

Definition rstrip (s : pystr) : pystr := rev (lstrip (rev s)).

(** [s.strip()] *)
Definition strip (s : pystr) : pystr := rstrip (lstrip s).

Definition is_ascii_upper (c : N) : bool := (65 <=? c) && (c <=? 90).
Definition is_ascii_lower (c : N) : bool := (97 <=? c) && (c <=? 122).
Definition is_ascii_digit (c : N) : bool := (48 <=? c) && (c <=? 57).
Definition ascii_upper (c : N) : N := if is_ascii_lower c then c - 32 else c.
Definition ascii_lower (c : N) : N := if is_ascii_upper c then c + 32 else c.

(** The four letters beside the ASCII ones that [[A-Za-z]] matches under
    [re.IGNORECASE]: U+0130, U+0131, U+017F and U+212A (Kelvin sign). *)
Definition is_extra_letter (c : N) : bool :=
  (c =? 304) || (c =? 305) || (c =? 383) || (c =? 8490).

(** Title case and lower case of one such letter or ASCII character. *)
Definition char_title (c : N) : pystr :=
  if c =? 383 then [83] else if c =? 305 then [73] else [ascii_upper c].

Definition char_lower (c : N) : pystr :=
  if c =? 8490 then [107] else if c =? 304 then [105; 775] else [ascii_lower c].

(** [s.title()] for a string whose cased characters are ASCII letters or
    one of the four letters above. *)
Fixpoint title_from (in_word : bool) (s : pystr) : pystr :=
  match s with
  | [] => []
  | c :: s' =>
      if is_ascii_upper c || is_ascii_lower c || is_extra_letter c
      then (if in_word then char_lower c else char_title c) ++ title_from true s'
      else c :: title_from false s'
  end.

Definition title (s : pystr) : pystr := title_from false s.

(** [str(n)] of an int *)
Definition str_of_Z (n : Z) : pystr :=
  bytes_of (NilZero.string_of_int (Z.to_int n)).

(** Comparison of two str: lexicographic on code points. *)
Fixpoint str_leb (a b : pystr) : bool :=
  match a, b with
  | [], _ => true
  | _ :: _, [] => false
  | x :: a', y :: b' => (x <? y) || ((x =? y) && str_leb a' b')
  end.

End PyStr.

Import PyStr.

(** ** multiple.py: class JGBFParser *)

(** *** The dictionaries of [__init__] *)

Definition instrument_mapping : list (pystr * pystr) :=
  [ (py "JGB(10-year) Futures", py "JGB10YEARFUTURES");
    (py "mini-10-year JGB Futures", py "MINI10YEARJGBFUTURESCASHSETTLED");
    (py "mini-20-year JGB Futures", py "MINI20YEARJGBFUTURES");
    (py "3-Month TONA Futures", py "3MONTHTONAFUTURES") ].

Definition main_summary_categories : list (pystr * pystr) :=
  [ (py "自己取引計", py "PROPRIETARY");
    (py "委託取引計", py "BROKERAGE");
    (py "自己委託合計", py "TOTAL") ].

Definition brokerage_categories : list (pystr * pystr) :=
  [ (py "法人計", py "INSTITUTIONS");
    (py "個人計", py "INDIVIDUALS");
    (py "海外投資家計", py "FOREIGNERS");
    (py "証券会社", py "SECURITIES_COS") ].

Definition subcategories : list (pystr * pystr) :=
  [ (py "売り", py "SALES"); (py "買い", py "PURCHASES") ].

Definition month_map : list (pystr * N) :=
  [ (py "Jan", 1); (py "Feb", 2); (py "Mar", 3); (py "Apr", 4);
    (py "May", 5); (py "Jun", 6); (py "Jul", 7); (py "Aug", 8);
    (py "Sep", 9); (py "Oct", 10); (py "Nov", 11); (py "Dec", 12) ].

(** [d.get(k)] on an association list *)
Fixpoint dict_get {V} (d : list (pystr * V)) (k : pystr) : option V :=
  match d with
  | [] => None
  | (k', v) :: d' => if bool_decide (k' = k) then Some v else dict_get d' k
  end.

(** *** get_template_columns *)

Record column := { code : pystr; description : pystr }.

Definition instruments : list (pystr * pystr) :=
  [ (py "JGB10YEARFUTURES", py "JGB(10-year) Futures");
    (py "MINI10YEARJGBFUTURESCASHSETTLED", py "mini-10-year JGB Futures（Cash-Settled)");
    (py "MINI20YEARJGBFUTURES", py "mini-20-year JGB Futures");
    (py "3MONTHTONAFUTURES", py "3-Month TONA Futures") ].

Definition main_cats : list (pystr * pystr) :=
  [ (py "PROPRIETARY", py "Proprietary");
    (py "BROKERAGE", py "Brokerage");
    (py "TOTAL", py "Total") ].

Definition breakdown_cats : list (pystr * pystr) :=
  [ (py "INSTITUTIONS", py "Institutions");
    (py "INDIVIDUALS", py "Individuals");
    (py "FOREIGNERS", py "Foreigners");
    (py "SECURITIES_COS", py "Securities Cos") ].

Definition subcat_list : list pystr := [py "SALES"; py "PURCHASES"].
Definition metric_list : list pystr := [py "VALUE"; py "BALANCE"].

(** The first loop nest (lines 56-62). *)
Definition main_columns : list column :=
  '(instr_code, instr_name) ← instruments;
  '(cat_code, cat_name) ← main_cats;
  subcat ← subcat_list;
  metric ← metric_list;
  [ {| code := py "JGBF.TOTAL_PROPRIETARY_BROKERAGE." ++ instr_code
                 ++ py ".TRADINGVALUE." ++ cat_code ++ py "." ++ subcat
                 ++ py "." ++ metric ++ py ".W";
       description := py "Trading by Type of Investors, " ++ instr_name
                 ++ py ", Total, Proprietary ＆ Brokerage, Trading Value, "
                 ++ cat_name ++ py ", " ++ title subcat ++ py ", " ++ title metric |} ].

(** The second loop nest (lines 65-75). *)
Definition breakdown_columns : list column :=
  '(instr_code, instr_name) ← instruments;
  '(cat_code, cat_name) ← breakdown_cats;
  subcat ← subcat_list;
  metric ← metric_list;
  [ {| code :=
         if bool_decide (instr_code = py "JGB10YEARFUTURES")
         then py "JGBF.TRADINGBYTYPEOFINVESTORS." ++ instr_code
                ++ py ".BREAKDOWNOFBROKERAGE.TRADINGVALUE." ++ cat_code
                ++ py "." ++ subcat ++ py "." ++ metric ++ py ".W"
         else py "JGBF.TOTAL_PROPRIETARY_BROKERAGE." ++ instr_code
                ++ py ".BREAKDOWNOFBROKERAGE.TRADINGVALUE." ++ cat_code
                ++ py "." ++ subcat ++ py "." ++ metric ++ py ".W";
       description := py "Trading by Type of Investors, " ++ instr_name
                 ++ py ", Breakdown of Brokerage, Trading Value, "
                 ++ cat_name ++ py ", " ++ title subcat ++ py ", " ++ title metric |} ].

Definition get_template_columns : list column := main_columns ++ breakdown_columns.


(** *** Exceptions *)

Inductive exn := IndexError | ValueError | AttributeError.

Inductive result (A : Type) : Type :=
  | Ok (a : A)
  | Raise (e : exn).
Arguments Ok {A} a.
Arguments Raise {A} e.

#[global] Instance result_ret : MRet result := fun _ a => Ok a.
#[global] Instance result_bind : MBind result := fun _ _ f r =>
  match r with
  | Ok a => f a
  | Raise e => Raise e
  end.

#[global] Instance result_fmap : FMap result := fun _ _ f r =>
  match r with
  | Ok a => Ok (f a)
  | Raise e => Raise e
  end.

(** *** Cell values read from a worksheet *)

(** What [openpyxl] hands back for a cell with [data_only=True]: None, a
    str, an int, a bool, or another object (a float, a date or a time),
    which is carried by its truth value and by its [str()] text. *)
Inductive cell :=
  | CNone
  | CStr (s : pystr)
  | CInt (n : Z)
  | CBool (b : bool)
  | COther (truth : bool) (text : pystr).

(** [bool(x)] *)
Definition truthy (x : cell) : bool :=
  match x with
  | CNone => false
  | CStr s => negb (bool_decide (s = []))
  | CInt n => negb (n =? 0)%Z
  | CBool b => b
  | COther truth _ => truth
  end.

(** [str(x)] *)
Definition str_of (x : cell) : pystr :=
  match x with
  | CNone => py "None"
  | CStr s => s
  | CInt n => str_of_Z n
  | CBool true => py "True"
  | CBool false => py "False"
  | COther _ text => text
  end.

(** [x or ""] *)
Definition or_empty (x : cell) : cell := if truthy x then x else CStr [].

(** [x == s] for a str [s] *)
Definition eq_str (x : cell) (s : pystr) : bool :=
  match x with
  | CStr t => bool_decide (t = s)
  | _ => false
  end.

(** [row[i]] on a tuple *)
Definition getitem (row : list cell) (i : nat) : result cell :=
  match row !! i with
  | Some c => Ok c
  | None => Raise IndexError
  end.

(** *** handle_negative_values *)

Definition handle_negative_values (value : cell) : pystr :=
  if match value with CNone => true | _ => false end
     || eq_str value (py "-") || eq_str value []
  then []
  else
    let value_str := strip (str_of value) in
    if startswith (py "▲") value_str
    then py "-" ++ drop 1 value_str
    else value_str.

(** *** _parse_table *)

Record sheet_data := { subtitle : pystr; data_rows : list (list cell) }.

(** One element of the result list: the dict with keys code, date, value. *)
Record datum := { item_code : pystr; item_date : pystr; item_value : pystr }.

#[global] Instance datum_eq_dec : EqDecision datum.
Proof. solve_decision. Defined.

(** [next((en for jp, en in d.items() if jp in text), None)] *)
Fixpoint first_match (d : list (pystr * pystr)) (text : pystr) : option pystr :=
  match d with
  | [] => None
  | (jp, en) :: d' => if str_in jp text then Some en else first_match d' text
  end.

(** [not x] for a value that is None or a str *)
Definition not_opt (x : option pystr) : bool :=
  match x with
  | None => true
  | Some s => bool_decide (s = [])
  end.

(** The f-strings of lines 142-149. *)
Definition series_code (is_main : bool) (instrument_code category subcat metric : pystr)
  : pystr :=
  if is_main
  then py "JGBF.TOTAL_PROPRIETARY_BROKERAGE." ++ instrument_code
         ++ py ".TRADINGVALUE." ++ category ++ py "." ++ subcat
         ++ py "." ++ metric ++ py ".W"
  else if bool_decide (instrument_code = py "JGB10YEARFUTURES")
  then py "JGBF.TRADINGBYTYPEOFINVESTORS." ++ instrument_code
         ++ py ".BREAKDOWNOFBROKERAGE.TRADINGVALUE." ++ category
         ++ py "." ++ subcat ++ py "." ++ metric ++ py ".W"
  else py "JGBF.TOTAL_PROPRIETARY_BROKERAGE." ++ instrument_code
         ++ py ".BREAKDOWNOFBROKERAGE.TRADINGVALUE." ++ category
         ++ py "." ++ subcat ++ py "." ++ metric ++ py ".W".

(** The inner loop over [("VALUE", val), ("BALANCE", bal)]. *)
Definition emit_metrics (is_main : bool) (instrument_code date_code : pystr)
    (category subcat : pystr) (pairs : list (pystr * cell)) : list datum :=
  '(metric, data_val) ← pairs;
  let processed_value := handle_negative_values data_val in
  if bool_decide (processed_value = []) then []
  else
    let code := series_code is_main instrument_code category subcat metric in
    if bool_decide (code = []) then []
    else [ {| item_code := code; item_date := date_code; item_value := processed_value |} ].

(** The body of the loop over the rows from line 132 on, given the four
    cells it reads; [[]] is a [continue]. *)
Definition parse_fields (is_main : bool) (instrument_code date_code : pystr)
    (c0 c1 val bal : cell) : list datum :=
  let cat_full := str_of (or_empty c0) in
  let subcat_raw := str_of (or_empty c1) in
  if bool_decide (cat_full = []) || bool_decide (subcat_raw = [])
     || str_in (py "合計") subcat_raw
  then []
  else
    let category_map :=
      if is_main then main_summary_categories else brokerage_categories in
    let category := first_match category_map cat_full in
    let subcat := first_match subcategories subcat_raw in
    if not_opt category || not_opt subcat then []
    else emit_metrics is_main instrument_code date_code
           (default [] category) (default [] subcat)
           [ (py "VALUE", val); (py "BALANCE", bal) ].

(** The body of the loop over the rows. *)
Definition parse_row (is_main : bool) (instrument_code date_code : pystr)
    (row : list cell) : result (list datum) :=
  if (length row <? 8)%nat then Ok []
  else
    c0 ← getitem row 0;
    c1 ← getitem row 1;
    val ← getitem row 5;
    bal ← getitem row 7;
    Ok (parse_fields is_main instrument_code date_code c0 c1 val bal).

Fixpoint parse_rows (is_main : bool) (instrument_code date_code : pystr)
    (rows : list (list cell)) : result (list datum) :=
  match rows with
  | [] => Ok []
  | row :: rows' =>
      ds ← parse_row is_main instrument_code date_code row;
      rest ← parse_rows is_main instrument_code date_code rows';
      Ok (ds ++ rest)
  end.

Definition _parse_table (sheet : sheet_data) (instrument_code date_code table_type : pystr)
  : result (list datum) :=
  let is_main := bool_decide (table_type = py "main_summary") in
  parse_rows is_main instrument_code date_code (data_rows sheet).

(** *** generate_output_file *)

Definition UNKNOWN_DATE : pystr := py "UNKNOWN_DATE".

Definition str_le (a b : pystr) : Prop := Is_true (str_leb a b).

(** [data_pivot.setdefault(item['code'], {})[item['date']] = item['value']] *)
Definition pivot_store (data_pivot : gmap pystr (gmap pystr pystr)) (item : datum)
  : gmap pystr (gmap pystr pystr) :=
  <[ item_code item :=
       <[ item_date item := item_value item ]>
         (default ∅ (data_pivot !! item_code item)) ]> data_pivot.

Definition build_pivot (all_data : list datum) : gmap pystr (gmap pystr pystr) :=
  foldl pivot_store ∅ all_data.

(** [data_pivot.get(code, {}).get(date, "")] *)
Definition pivot_get (data_pivot : gmap pystr (gmap pystr pystr)) (c date : pystr)
  : pystr :=
  default [] (default ∅ (data_pivot !! c) !! date).

(** [sorted([d for d in {item['date'] for item in all_data} if d != "UNKNOWN_DATE"])] *)
Definition sorted_dates (all_data : list datum) : list pystr :=
  let date_set : gset pystr := list_to_set (item_date <$> all_data) in
  merge_sort str_le (filter (λ d, d ≠ UNKNOWN_DATE) (elements date_set)).

(** The worksheet JGBF_DATA as the grid of the values written to it, row by
    row from column A (the loops of lines 200-210). *)
Definition write_grid (template_columns : list column)
    (data_pivot : gmap pystr (gmap pystr pystr)) (all_dates : list pystr)
  : list (list pystr) :=
  (py "Date" :: (code <$> template_columns))
  :: (py "Description" :: (description <$> template_columns))
  :: ((λ date,
        date :: ((λ col_def, pivot_get data_pivot (code col_def) date)
                   <$> template_columns))
        <$> all_dates).

(** [None] when the function returns without writing a workbook.  The file
    name only decides where the workbook is saved. *)
Definition generate_output_file (all_data : list datum) : option (list (list pystr)) :=
  if bool_decide (all_data = []) then None
  else
    let data_pivot := build_pivot all_data in
    let all_dates := sorted_dates all_data in
    if bool_decide (all_dates = []) then None
    else
      let template_columns := get_template_columns in
      Some (write_grid template_columns data_pivot all_dates).

(** *** datetime: construction and isocalendar (CPython's algorithm) *)

Module Datetime.
Open Scope Z_scope.

Record date := { year : Z; month : Z; day : Z }.

Definition is_leap (y : Z) : bool :=
  (y mod 4 =? 0) && (negb (y mod 100 =? 0) || (y mod 400 =? 0)).

Definition days_in_month (y m : Z) : Z :=
  if m =? 2 then (if is_leap y then 29 else 28)
  else if (m =? 4) || (m =? 6) || (m =? 9) || (m =? 11) then 30
  else 31.

Definition days_before_year (y : Z) : Z :=
  let y' := y - 1 in y' * 365 + y' / 4 - y' / 100 + y' / 400.

Definition days_before_month (y m : Z) : Z :=
  foldr Z.add 0 (days_in_month y <$> (Z.of_nat <$> seq 1 (Z.to_nat (m - 1)))).

Definition ymd2ord (y m d : Z) : Z :=
  days_before_year y + days_before_month y m + d.

(** [datetime(y, m, d)]; ValueError outside the calendar. *)
Definition datetime (y m d : Z) : result date :=
  if (1 <=? y) && (y <=? 9999) && (1 <=? m) && (m <=? 12)
     && (1 <=? d) && (d <=? days_in_month y m)
  then Ok {| year := y; month := m; day := d |}
  else Raise ValueError.

Definition isoweek1monday (y : Z) : Z :=
  let firstday := ymd2ord y 1 1 in
  let firstweekday := (firstday + 6) mod 7 in
  let week1monday := firstday - firstweekday in
  if 3 <? firstweekday then week1monday + 7 else week1monday.

Definition isocalendar (dt : date) : Z * Z * Z :=
  let y := year dt in
  let week1monday := isoweek1monday y in
  let today := ymd2ord y (month dt) (day dt) in
  let week := (today - week1monday) / 7 in
  let wday := (today - week1monday) mod 7 in
  if week <? 0 then
    let week1monday' := isoweek1monday (y - 1) in
    (y - 1, (today - week1monday') / 7 + 1, (today - week1monday') mod 7 + 1)
  else if (52 <=? week) && (isoweek1monday (y + 1) <=? today) then
    (y + 1, 1, wday + 1)
  else (y, week + 1, wday + 1).

(** [f"{n:02d}"] *)
Definition format_02d (n : Z) : pystr :=
  if (0 <=? n) && (n <? 10) then py "0" ++ str_of_Z n else str_of_Z n.

End Datetime.

(** *** Regular expressions: the fragment the three patterns use *)

Module Re.

(** A pattern is a sequence of greedy repetitions [c{lo,hi}] of a character
    class, with markers where a capturing group opens and closes. *)
Inductive atom :=
  | Rep (cls : N → bool) (lo hi : nat)
  | GOpen
  | GClose.

(** A literal of the pattern under [re.IGNORECASE] (Unicode matching). *)
Definition lit_ci (c x : N) : bool :=
  (ascii_lower x =? ascii_lower c)
  || ((ascii_lower c =? 107) && (x =? 8490))
  || ((ascii_lower c =? 115) && (x =? 383))
  || ((ascii_lower c =? 105) && ((x =? 304) || (x =? 305))).

Definition Lit (c : N) : atom := Rep (lit_ci c) 1 1.

Definition lits (s : pystr) : list atom := Lit <$> s.

(** [[A-Za-z]] under [re.IGNORECASE] *)
Definition letter_ci (x : N) : bool :=
  is_ascii_upper x || is_ascii_lower x || is_extra_letter x.

(** Exactly [k] characters of the class at the front of [s]. *)
Fixpoint take_cls (cls : N → bool) (k : nat) (s : pystr) : option (pystr * pystr) :=
  match k with
  | O => Some ([], s)
  | S k' =>
      match s with
      | c :: s' =>
          if cls c
          then '(t, rest) ← take_cls cls k' s'; Some (c :: t, rest)
          else None
      | [] => None
      end
  end.

Fixpoint first_some {A B} (f : A → option B) (l : list A) : option B :=
  match l with
  | [] => None
  | a :: l' => match f a with Some b => Some b | None => first_some f l' end
  end.

(** Backtracking match at the front of [s]; the greedy repetition tries
    [hi] characters first.  [cur] is the text of the group being read. *)
Fixpoint match_here (p : list atom) (s cur : pystr) (groups : list pystr)
  : option (list pystr) :=
  match p with
  | [] => Some groups
  | GOpen :: p' => match_here p' s [] groups
  | GClose :: p' => match_here p' s [] (groups ++ [cur])
  | Rep cls lo hi :: p' =>
      first_some
        (λ k, '(t, rest) ← take_cls cls k s; match_here p' rest (cur ++ t) groups)
        (rev (seq lo (S hi - lo)))
  end.

(** [re.search(p, s)]: the groups of the leftmost match. *)
Fixpoint search (p : list atom) (s : pystr) : option (list pystr) :=
  match match_here p s [] [] with
  | Some g => Some g
  | None => match s with [] => None | _ :: s' => search p s' end
  end.

End Re.

Section Unicode.

(** The tables of the Unicode database the code reaches through [re], [int]
    and [str] methods: the value of a decimal digit beyond ASCII (category
    Nd), [str.lower], and [str.isalnum] beyond ASCII. *)
Variable unicode_decimal : N → option N.
Variable str_lower : pystr → pystr.
Variable unicode_isalnum : N → bool.

(** [\d] *)
Definition is_digit (c : N) : bool :=
  if c <? 128 then is_ascii_digit c
  else match unicode_decimal c with Some _ => true | None => false end.

Definition digit_value (c : N) : Z :=
  if c <? 128 then Z.of_N (c - 48)
  else match unicode_decimal c with Some v => Z.of_N v | None => 0%Z end.

(** [int(s)] on a string of digits *)
Definition int_of (s : pystr) : Z :=
  foldl (λ acc c, (acc * 10 + digit_value c)%Z) 0%Z s.

Import Re.

(** [_(\d{4})_Week\d_(\d{1,2})-(\d{1,2})] *)
Definition pattern1 : list atom :=
  lits (py "_") ++ [GOpen; Rep is_digit 4 4; GClose] ++ lits (py "_Week")
  ++ [Rep is_digit 1 1] ++ lits (py "_") ++ [GOpen; Rep is_digit 1 2; GClose]
  ++ lits (py "-") ++ [GOpen; Rep is_digit 1 2; GClose].

(** [([A-Za-z]{3})_(\d{4})_Week\d_(\d{1,2})-\d{1,2}] *)
Definition pattern2 : list atom :=
  [GOpen; Rep letter_ci 3 3; GClose] ++ lits (py "_")
  ++ [GOpen; Rep is_digit 4 4; GClose] ++ lits (py "_Week")
  ++ [Rep is_digit 1 1] ++ lits (py "_") ++ [GOpen; Rep is_digit 1 2; GClose]
  ++ lits (py "-") ++ [Rep is_digit 1 2].

(** [_([A-Za-z]{3})\.?_(\d{1,2})_(\d{4})_-_] *)
Definition pattern3 : list atom :=
  lits (py "_") ++ [GOpen; Rep letter_ci 3 3; GClose] ++ [Rep (lit_ci 46) 0 1]
  ++ lits (py "_") ++ [GOpen; Rep is_digit 1 2; GClose] ++ lits (py "_")
  ++ [GOpen; Rep is_digit 4 4; GClose] ++ lits (py "_-_").

(** *** extract_date_from_filename *)

(** [date_obj = datetime(y, m, d); iso_year, iso_week, _ = date_obj.isocalendar();
    return f"{iso_year}-{iso_week:02d}"] *)
Definition week_key (y m d : Z) : result pystr :=
  date_obj ← Datetime.datetime y m d;
  let '(iso_year, iso_week, _) := Datetime.isocalendar date_obj in
  Ok (str_of_Z iso_year ++ py "-" ++ Datetime.format_02d iso_week).

(** A [try] block whose handler is [except Exception: pass]: [Some] is a
    [return] inside the block, [None] falls through to the next statement. *)
Definition try_pass (body : result (option pystr)) : option pystr :=
  match body with
  | Ok r => r
  | Raise _ => None
  end.

Definition try_match1 (filename : pystr) : option pystr :=
  match search pattern1 filename with
  | Some [year_str; month_str; day_str] =>
      try_pass (Some <$> week_key (int_of year_str) (int_of month_str) (int_of day_str))
  | _ => None
  end.

Definition try_match2 (filename : pystr) : option pystr :=
  match search pattern2 filename with
  | Some [month_name; year_str; day_str] =>
      try_pass
        match dict_get month_map (title month_name) with
        | Some month => Some <$> week_key (int_of year_str) (Z.of_N month) (int_of day_str)
        | None => Ok None
        end
  | _ => None
  end.

Definition try_match3 (filename : pystr) : option pystr :=
  match search pattern3 filename with
  | Some [month_name; day_str; year_str] =>
      try_pass
        match dict_get month_map (title month_name) with
        | Some month => Some <$> week_key (int_of year_str) (Z.of_N month) (int_of day_str)
        | None => Ok None
        end
  | _ => None
  end.

Definition extract_date_from_filename (filename : pystr) : pystr :=
  match try_match1 filename with
  | Some r => r
  | None =>
      match try_match2 filename with
      | Some r => r
      | None =>
          match try_match3 filename with
          | Some r => r
          | None => UNKNOWN_DATE
          end
      end
  end.

(** *** extract_instrument_from_subtitle *)

Definition extract_instrument_from_subtitle (subtitle : pystr) : option pystr :=
  let subtitle_clean :=
    replace (py "、") (py ",") (replace (py "）") (py ")") (replace (py "（") (py "(") subtitle)) in
  if str_in (py "mini-20-year") (str_lower subtitle_clean)
     || str_in (py "超長期国債先物") subtitle_clean
  then Some (py "MINI20YEARJGBFUTURES")
  else if str_in (py "3-Month TONA") subtitle_clean || str_in (py "TONA") subtitle_clean
  then Some (py "3MONTHTONAFUTURES")
  else if str_in (py "JGB(10-year)") subtitle_clean || str_in (py "長期国債先物") subtitle_clean
  then
    if str_in (py "mini") (str_lower subtitle_clean) || str_in (py "ミニ") subtitle_clean
    then Some (py "MINI10YEARJGBFUTURESCASHSETTLED")
    else Some (py "JGB10YEARFUTURES")
  else None.

(** *** read_excel_sheet and process_single_file *)

(** A worksheet as the parser reads it: the value of cell A2 and the rows
    from row 6 on. *)
Record worksheet := { ws_a2 : cell; ws_rows : list (list cell) }.

(** An Excel file: its name and, when [load_workbook] succeeds, its sheets
    by name in workbook order. *)
Record xlsx := { file_name : pystr; file_book : option (list (pystr * worksheet)) }.

(** [row and row[0]] *)
Definition row_kept (row : list cell) : bool :=
  match row with
  | [] => false
  | c :: _ => truthy c
  end.

(** [None] covers both the missing sheet and the logged exception. *)
Definition read_excel_sheet (file : xlsx) (sheet_name : pystr) : option sheet_data :=
  wb ← file_book file;
  ws ← dict_get wb sheet_name;
  match or_empty (ws_a2 ws) with
  | CStr a2 =>
      Some {| subtitle := replace (py "Subtitle: ") [] a2;
              data_rows := filter (λ row, Is_true (row_kept row)) (ws_rows ws) |}
  | _ => None
  end.

Definition table_type_of (sheet_name : pystr) : option pystr :=
  if str_in (py "Table1_Main_Summary") sheet_name then Some (py "main_summary")
  else if str_in (py "Table2_Brokerage_Bre") sheet_name then Some (py "brokerage_breakdown")
  else None.

(** [Path(name).stem] for a bare file name. *)
Fixpoint rfind (c : N) (s : pystr) : option nat :=
  match s with
  | [] => None
  | x :: s' =>
      match rfind c s' with
      | Some i => Some (S i)
      | None => if x =? c then Some O else None
      end
  end.

Definition path_stem (name : pystr) : pystr :=
  match rfind 46 name with
  | Some i => if (0 <? i)%nat && (i <? length name - 1)%nat then take i name else name
  | None => name
  end.

(** The loop over [wb.sheetnames]; an exception leaves the loop with the
    results gathered so far. *)
Fixpoint process_sheets (file : xlsx) (date_code : pystr)
    (sheets : list (pystr * worksheet)) (file_results : list datum) : list datum :=
  match sheets with
  | [] => file_results
  | (sheet_name, _) :: sheets' =>
      match table_type_of sheet_name with
      | None => process_sheets file date_code sheets' file_results
      | Some table_type =>
          match read_excel_sheet file sheet_name with
          | None => process_sheets file date_code sheets' file_results
          | Some sheet =>
              match extract_instrument_from_subtitle (subtitle sheet) with
              | None => process_sheets file date_code sheets' file_results
              | Some instrument_code =>
                  match _parse_table sheet instrument_code date_code table_type with
                  | Ok parsed_data =>
                      process_sheets file date_code sheets' (file_results ++ parsed_data)
                  | Raise _ => file_results
                  end
              end
          end
      end
  end.

Definition process_single_file (file : xlsx) : list datum :=
  let date_code := extract_date_from_filename (path_stem (file_name file)) in
  if bool_decide (date_code = UNKNOWN_DATE) then []
  else
    match file_book file with
    | None => []
    | Some sheets => process_sheets file date_code sheets []
    end.

(** ** Scrape.py: generate_filename *)

Definition isalnum (c : N) : bool :=
  if c <? 128 then is_ascii_digit c || is_ascii_upper c || is_ascii_lower c
  else unicode_isalnum c.

Definition generate_filename (date_text file_type : pystr) : pystr :=
  let clean_date :=
    replace (py ",") []
      (replace (py " ") (py "_")
         (replace (py "/") (py "-")
            (replace (py "）") [] (replace (py "（") (py "_") date_text)))) in
  filter (λ c, Is_true (isalnum c || str_in [c] (py "._-"))) clean_date
  ++ py "." ++ file_type.

End Unicode.

(** ** new2.py: titles of the tables of a page *)

Definition table_section_titles : list pystr :=
  [ py "総計・自己合計・委託合計 Total, Proprietary & Brokerage";
    py "委託内訳 Breakdown of Brokerage";
    py "法人内訳 Breakdown of Institutions";
    py "金融機関内訳 Breakdown of Financial Institutions" ].

Definition table_keywords : list pystr :=
  [ py "総計・自己合計・委託合計"; py "委託内訳"; py "法人内訳"; py "金融機関内訳" ].

(** [str(n)] of a natural number *)
Definition str_of_nat (n : nat) : pystr := str_of_Z (Z.of_nat n).

(** The [while] loop of lines 137-138: one label per missing title. *)
Fixpoint pad_titles (fuel : nat) (found_titles : list pystr) : list pystr :=
  match fuel with
  | O => found_titles
  | S fuel' =>
      if (length found_titles <? length table_keywords)%nat
      then pad_titles fuel'
             (found_titles ++ [py "Table Title " ++ str_of_nat (length found_titles + 1)
                                 ++ py " (Not Found)"])
      else found_titles
  end.

Definition extract_table_titles_from_text (text : pystr) : list pystr :=
  let found_titles :=
    '(keyword, full_title) ← zip table_keywords table_section_titles;
    if str_in keyword text then [full_title] else [] in
  pad_titles (length table_keywords) found_titles.

(** One successful page result, as [convert_docx_to_excel] reads it. *)
Record page_result :=
  { pr_subtitle : pystr; table_count : nat; table_titles : list pystr }.

(** The body of the inner loop (lines 282-286): the title of the [i]-th
    table of a page. *)
Definition title_of_table (page_table_titles : list pystr) (i : nat) : pystr :=
  let table_pos_on_page := (i mod 4)%nat in
  if (table_pos_on_page <? length page_table_titles)%nat
  then default [] (page_table_titles !! table_pos_on_page)
  else py "Table Title " ++ str_of_nat (table_pos_on_page + 1).

(** The two maps and [current_table_index], threaded through the loops of
    lines 277-287. *)
Record title_state :=
  { table_to_subtitle_map : gmap nat pystr;
    table_to_table_title_map : gmap nat pystr;
    current_table_index : nat }.

Definition assign_table (result : page_result) (st : title_state) (i : nat)
  : title_state :=
  {| table_to_subtitle_map :=
       <[ current_table_index st := pr_subtitle result ]> (table_to_subtitle_map st);
     table_to_table_title_map :=
       <[ current_table_index st := title_of_table (table_titles result) i ]>
         (table_to_table_title_map st);
     current_table_index := current_table_index st + 1 |}.

Definition assign_page (st : title_state) (result : page_result) : title_state :=
  foldl (assign_table result) st (seq 0 (table_count result)).

Definition assign_titles (page_results : list page_result) : title_state :=
  foldl assign_page
    {| table_to_subtitle_map := ∅; table_to_table_title_map := ∅;
       current_table_index := 0 |}
    page_results.

(** ** The universe of series codes *)

(** The values the Row Parser can put into a code: the table type, an
    instrument code of [instrument_mapping], a category of the dictionary of
    the table type, a subcategory and a metric. *)
Definition parser_tuples (is_main : bool) : list (bool * pystr * pystr * pystr * pystr) :=
  instrument_code ← instrument_mapping.*2;
  category ← (if is_main then main_summary_categories else brokerage_categories).*2;
  subcat ← subcategories.*2;
  metric ← metric_list;
  [ (is_main, instrument_code, category, subcat, metric) ].

Definition parser_universe : list (bool * pystr * pystr * pystr * pystr) :=
  parser_tuples true ++ parser_tuples false.

(** The tuples the claim on injectivity ranges over; the category decides
    the table type. *)
Definition tuple_universe : list (pystr * pystr * pystr * pystr) :=
  instrument_code ← instrument_mapping.*2;
  category ← main_summary_categories.*2 ++ brokerage_categories.*2;
  subcat ← subcategories.*2;
  metric ← metric_list;
  [ (instrument_code, category, subcat, metric) ].

Definition tuple_code (t : pystr * pystr * pystr * pystr) : pystr :=
  let '(instrument_code, category, subcat, metric) := t in
  series_code (bool_decide (category ∈ main_summary_categories.*2))
    instrument_code category subcat metric.

(** ** multiple.py: process_folders *)

(** A folder as [process_folders] meets it: [None] when it does not exist,
    else the files that [glob("*.xlsx")] yields, in any order. *)
Definition folder := option (list xlsx).

(** Paths of one folder compare by their names (POSIX paths). *)
Definition name_le (a b : xlsx) : Prop := str_le (file_name a) (file_name b).

(** [sorted([f for f in folder_path.glob("*.xlsx") if not f.name.startswith("~$")])] *)
Definition found_files (fd : folder) : list xlsx :=
  match fd with
  | None => []
  | Some files =>
      merge_sort name_le
        (filter (λ f, Is_true (negb (startswith (py "~$") (file_name f)))) files)
  end.

Definition all_excel_files (folders_to_process : list folder) : list xlsx :=
  folders_to_process ≫= found_files.

Section Folders.

Variable unicode_decimal : N → option N.
Variable str_lower : pystr → pystr.

Definition master_data_list (folders_to_process : list folder) : list datum :=
  all_excel_files folders_to_process ≫= process_single_file unicode_decimal str_lower.

(** The worksheet of the consolidated workbook, [None] when none is written. *)
Definition process_folders (folders_to_process : list folder)
  : option (list (list pystr)) :=
  match all_excel_files folders_to_process with
  | [] => None
  | _ :: _ =>
      match master_data_list folders_to_process with
      | [] => None
      | _ :: _ => generate_output_file (master_data_list folders_to_process)
      end
  end.

End Folders.

(** ** new2.py: the scan of the pages (get_relevant_pages_and_subtitles) *)

(** [self.target_subtitles] as [__init__] writes it, before the sort. *)
Definition target_subtitles_listed : list pystr :=
  [ py "長期国債先物（現金決済型ミニ）";
    py "JGB(10-year) Futures";
    py "mini-10-year JGB Futures (Cash-Settled)";
    py "mini-20-year JGB Futures";
    py "3-Month TONA Futures" ].

(** [l.sort(key=len, reverse=True)]: a stable sort, longest first. *)
Fixpoint insert_longest_first (x : pystr) (l : list pystr) : list pystr :=
  match l with
  | [] => [x]
  | y :: l' =>
      if (length y <? length x)%nat then x :: y :: l'
      else y :: insert_longest_first x l'
  end.

Definition sort_longest_first (l : list pystr) : list pystr :=
  foldl (λ acc x, insert_longest_first x acc) [] l.

Definition target_subtitles : list pystr := sort_longest_first target_subtitles_listed.

Definition primary_exclusion_keywords : list pystr := [ py "Options on"; py "オプション" ].

(** [any(ex_keyword in line for ex_keyword in keywords)] *)
Definition any_in (keywords : list pystr) (line : pystr) : bool :=
  existsb (λ keyword, str_in keyword line) keywords.

(** The loop over the keywords (lines 171-177): the keyword that matches
    first, if any. *)
Fixpoint first_keyword (keywords : list pystr) (line : pystr) : option pystr :=
  match keywords with
  | [] => None
  | subtitle_keyword :: keywords' =>
      if str_in subtitle_keyword line then Some subtitle_keyword
      else first_keyword keywords' line
  end.

(** The loop over the lines of one page (lines 163-180): the subtitle
    captured, if any. *)
Fixpoint scan_lines (keywords : list pystr) (lines : list pystr) : option pystr :=
  match lines with
  | [] => None
  | line :: lines' =>
      if bool_decide (strip line = []) then scan_lines keywords lines'
      else if any_in primary_exclusion_keywords line then scan_lines keywords lines'
      else
        match first_keyword keywords line with
        | Some _ => Some (strip line)
        | None => scan_lines keywords lines'
        end
  end.

(** The loop over the pages: the dict page number -> subtitle, in insertion
    order.  A page is the list of its lines, or [None] when reading its text
    raises: the scan then stops with what it has. *)
Fixpoint scan_pages (keywords : list pystr) (i : nat) (pages : list (option (list pystr)))
  : list (nat * pystr) :=
  match pages with
  | [] => []
  | None :: _ => []
  | Some lines :: pages' =>
      match scan_lines keywords lines with
      | Some full_subtitle => (i, full_subtitle) :: scan_pages keywords (S i) pages'
      | None => scan_pages keywords (S i) pages'
      end
  end.

(** [None] for a document that cannot be opened. *)
Definition get_relevant_pages_and_subtitles (doc : option (list (option (list pystr))))
  : list (nat * pystr) :=
  match doc with
  | None => []
  | Some pages => scan_pages target_subtitles 0 pages
  end.

(** ** new2.py: the results of the workers (process_pdfs_selectively) *)

(** What [convert_page_worker] returns for a page: on success the page with
    the path of its fragment, else the error text. *)
Inductive worker_result :=
  | Converted (pdf_name : pystr) (page_number : nat) (page_path : pystr)
      (page : page_result)
  | Failed (pdf_name : pystr) (page_number : nat) (error : pystr).

Definition wr_success (r : worker_result) : bool :=
  match r with Converted _ _ _ _ => true | Failed _ _ _ => false end.

Definition wr_pdf_name (r : worker_result) : pystr :=
  match r with Converted n _ _ _ => n | Failed n _ _ => n end.

Definition wr_page_number (r : worker_result) : nat :=
  match r with Converted _ p _ _ => p | Failed _ p _ => p end.

(** [if k not in d: d[k] = []] then [d[k].append(v)], on a dict in
    insertion order. *)
Fixpoint dict_append {V} (d : list (pystr * list V)) (k : pystr) (v : V)
  : list (pystr * list V) :=
  match d with
  | [] => [ (k, [v]) ]
  | (k', l) :: d' =>
      if bool_decide (k' = k) then (k', l ++ [v]) :: d'
      else (k', l) :: dict_append d' k v
  end.

(** [pdf_results], filled from the results in the order the workers
    finished. *)
Definition group_results (page_results : list worker_result)
  : list (pystr * list worker_result) :=
  foldl (λ pdf_results result,
           if wr_success result
           then dict_append pdf_results (wr_pdf_name result) result
           else pdf_results)
        [] page_results.

(** [results.sort(key=lambda x: x['page_number'])]: a stable sort. *)
Fixpoint insert_by_page (x : worker_result) (l : list worker_result)
  : list worker_result :=
  match l with
  | [] => [x]
  | y :: l' =>
      if (wr_page_number x <? wr_page_number y)%nat then x :: y :: l'
      else y :: insert_by_page x l'
  end.

Definition sort_by_page (l : list worker_result) : list worker_result :=
  foldl (λ acc x, insert_by_page x acc) [] l.

(** The documents to combine and convert, each with its results in the
    order of the pages. *)
Definition sorted_pdf_results (page_results : list worker_result)
  : list (pystr * list worker_result) :=
  (λ '(pdf_name, results), (pdf_name, sort_by_page results))
    <$> group_results page_results.

(** The file of the fragment of a page:
    [f"{job.pdf_name}_page_{job.page_number}.docx"] in [convert_page_worker]. *)
Definition page_docx_name (pdf_name : pystr) (page_number : nat) : pystr :=
  pdf_name ++ py "_page_" ++ str_of_nat page_number ++ py ".docx".

(** The names of the combined document and of its workbook *)

(** [f"{pdf_name}.docx"] with [pdf_name = pdf_file.stem] (lines 206, 244) *)
Definition combined_docx_name (pdf_file_name : pystr) : pystr :=
  path_stem pdf_file_name ++ py ".docx".

(** [f"{docx_path.stem}.xlsx"] (line 301) *)
Definition excel_name (docx_file_name : pystr) : pystr :=
  path_stem docx_file_name ++ py ".xlsx".

(** ** new2.py: the sheets of the workbook (convert_docx_to_excel) *)

Definition table_names : list pystr :=
  [ py "Table1_Main_Summary"; py "Table2_Brokerage_Breakdown";
    py "Table3_Institutions_Breakdown"; py "Table4_Financial_Breakdown" ].

(** [f"P{page_number_guess}_{table_name[:20]}"] for the [i]-th table of the
    combined document. *)
Definition sheet_name_of (i : nat) : pystr :=
  let page_number_guess := (i / 4 + 1)%nat in
  let table_position := (i mod 4)%nat in
  let table_name := default [] (table_names !! table_position) in
  py "P" ++ str_of_nat page_number_guess ++ py "_" ++ take 20 table_name.

(** [table_to_subtitle_map.get(i, "Subtitle Not Found")] and
    [table_to_table_title_map.get(i, "Table Title Not Found")] *)
Definition subtitle_of_table (st : title_state) (i : nat) : pystr :=
  default (py "Subtitle Not Found") (table_to_subtitle_map st !! i).

Definition table_title_of_table (st : title_state) (i : nat) : pystr :=
  default (py "Table Title Not Found") (table_to_table_title_map st !! i).

(** What [copy_table_to_sheet_with_enhanced_titles] writes to A1, A2 and A3
    of the sheet of the [i]-th table. *)
Record sheet_head := { head_name : pystr; head_a1 : pystr; head_a2 : pystr; head_a3 : pystr }.

Definition sheet_head_of (st : title_state) (i : nat) : sheet_head :=
  {| head_name := sheet_name_of i;
     head_a1 := py "Title: " ++ py "Trading by Type of Investors";
     head_a2 := py "Subtitle: " ++ subtitle_of_table st i;
     head_a3 := py "Table Title: " ++ table_title_of_table st i |}.

(** The heads of the sheets of a document with [total_tables] tables. *)
Definition sheet_heads (page_results : list page_result) (total_tables : nat)
  : list sheet_head :=
  sheet_head_of (assign_titles page_results) <$> seq 0 total_tables.

(** ** Scrape.py: the pages of a run (run_complete_scrape) *)

(** [d[k] = v] on a dict in insertion order. *)
Fixpoint dict_set {V} (d : list (pystr * V)) (k : pystr) (v : V) : list (pystr * V) :=
  match d with
  | [] => [ (k, v) ]
  | (k', v') :: d' =>
      if bool_decide (k' = k) then (k', v) :: d' else (k', v') :: dict_set d' k v
  end.

(** [urls_to_visit]; [None] when targeted mode finds no page and the run
    returns.  [mode] and [target_year] are what [config.get] gives. *)
Definition urls_to_visit (mode target_year : option pystr)
    (archive_urls : list (pystr * pystr)) : option (list (pystr * pystr)) :=
  if bool_decide (mode = Some (py "targeted")) then
    let urls0 : list (pystr * pystr) :=
      match dict_get archive_urls (py "Current") with
      | Some url => dict_set [] (py "Current") url
      | None => []
      end in
    let urls1 :=
      match target_year with
      | Some year =>
          match dict_get archive_urls year with
          | Some url => dict_set urls0 year url
          | None => urls0
          end
      | None => urls0
      end in
    match urls1 with
    | [] => None
    | _ :: _ => Some urls1
    end
  else Some archive_urls.

Section Scrape.

(** An entry of [self.all_data]; the state outside the scraper (the browser,
    the site, the download folder); and what a visit of a page does: the
    new state and the entries it appends to [self.all_data]. *)
Variable entry : Type.
Variable world : Type.
Variable scrape_page : world → pystr → pystr → world * list entry.

(** The loop over the pages: the pages visited, each with what its visit
    appended, the state and [self.all_data] after the loop. *)
Fixpoint visit_pages (targeted : bool) (urls : list (pystr * pystr))
    (w : world) (all_data : list entry)
  : list (pystr * list entry) * (world * list entry) :=
  match urls with
  | [] => ([], (w, all_data))
  | (page_key, url) :: urls' =>
      let '(w', added) := scrape_page w page_key url in
      let all_data' := all_data ++ added in
      if targeted && negb (bool_decide (length all_data' = 0%nat))
      then ([ (page_key, added) ], (w', all_data'))
      else
        let '(visits, final) := visit_pages targeted urls' w' all_data' in
        ((page_key, added) :: visits, final)
  end.

(** The run once the archive pages are discovered; [None] when it returns
    before the loop. *)
Definition run_complete_scrape (mode target_year : option pystr)
    (archive_urls : list (pystr * pystr)) (w : world)
  : option (list (pystr * list entry) * (world * list entry)) :=
  urls ← urls_to_visit mode target_year archive_urls;
  Some (visit_pages (bool_decide (mode = Some (py "targeted"))) urls w []).

End Scrape.

Arguments visit_pages {entry world} scrape_page targeted urls w all_data.
Arguments run_complete_scrape {entry world} scrape_page mode target_year archive_urls w.

(** ** Vocabulary of the statements and example data *)

(** What the row contributes, as a function of the row. *)
Definition row_data (is_main : bool) (instrument_code date_code : pystr)
    (row : list cell) : list datum :=
  match row with
  | c0 :: c1 :: _ :: _ :: _ :: val :: _ :: bal :: _ =>
      parse_fields is_main instrument_code date_code c0 c1 val bal
  | _ => []
  end.

Definition tuple5_code (t : bool * pystr * pystr * pystr * pystr) : pystr :=
  series_code t.1.1.1.1 t.1.1.1.2 t.1.1.2 t.1.2 t.2.

Definition example_sheet : sheet_data :=
  {| subtitle := py "JGB(10-year) Futures";
     data_rows :=
       [ [ CStr (py "自己取引計"); CStr (py "売り"); CNone; CNone; CNone;
           CStr (py "100"); CNone; CStr (py "▲50") ] ] |}.

Definition example_tuple : pystr * pystr * pystr * pystr :=
  (py "JGB10YEARFUTURES", py "INSTITUTIONS", py "SALES", py "VALUE").

(** The cell gives no label of the dictionary: it is empty, or none of the
    labels occurs in its text. *)
Definition lacks_label (d : list (pystr * pystr)) (c : cell) : Prop :=
  truthy c = false ∨ first_match d (str_of c) = None.

Definition skipped_row (is_main : bool) (row : list cell) : Prop :=
  (length row < 8)%nat
  ∨ (∃ c0, row !! 0%nat = Some c0
       ∧ lacks_label (if is_main then main_summary_categories else brokerage_categories) c0)
  ∨ (∃ c1, row !! 1%nat = Some c1
       ∧ (lacks_label subcategories c1 ∨ str_in (py "合計") (str_of c1) = true)).

Definition five_field_row : list cell :=
  [ CStr (py "自己取引計"); CStr (py "売り"); CStr (py "1"); CStr (py "2"); CStr (py "3") ].

Definition report_label : pystr := py "Jul 2025, Week2（7/7 - 7/11）".

Definition no_decimal : N → option N := λ _, None.
Definition ascii_only_lower : pystr → pystr := λ s, ascii_lower <$> s.
Definition no_alnum : N → bool := λ _, false.

Definition unnamed_file : xlsx :=
  {| file_name := py "report.xlsx";
     file_book :=
       Some [ (py "P1_Table1_Main_Summary",
               {| ws_a2 := CStr (py "Subtitle: JGB(10-year) Futures");
                  ws_rows := data_rows example_sheet |}) ] |}.

Definition full_page_text : pystr :=
  py "総計・自己合計・委託合計 委託内訳 法人内訳 金融機関内訳".

Definition five_table_page : page_result :=
  {| pr_subtitle := py "JGB(10-year) Futures";
     table_count := 5;
     table_titles := extract_table_titles_from_text full_page_text |}.

(** The datum is stored under the code [c] and the week [date]. *)
Definition same_key (c date : pystr) (x : datum) : Prop :=
  item_code x = c ∧ item_date x = date.

(** The cell of the grid in the row of the week [date] and the column of
    the code [c]: the column is found in the header row, the row by its
    first cell. *)
Definition grid_cell (grid : list (list pystr)) (date c : pystr) : option pystr :=
  header ← grid !! 0%nat;
  '(j, _) ← list_find (λ h, h = c) (tail header);
  '(_, row) ← list_find (λ r : list pystr, head r = Some date) (drop 2 grid);
  tail row !! j.

(** No two data of the list give different values to the same cell. *)
Definition consistent (l : list datum) : Prop :=
  ∀ x y, x ∈ l → y ∈ l →
    item_code x = item_code y → item_date x = item_date y →
    item_value x = item_value y.

Definition first_datum : datum :=
  {| item_code := series_code true (py "JGB10YEARFUTURES") (py "PROPRIETARY")
                    (py "SALES") (py "VALUE");
     item_date := py "2023-49"; item_value := py "100" |}.

Definition second_datum : datum :=
  {| item_code := item_code first_datum; item_date := py "2023-49";
     item_value := py "250" |}.

(** ** Vocabulary of the further statements *)

(** What every datum of a table parsed for the week [dc] satisfies. *)
Definition datum_ok (dc : pystr) (d : datum) : Prop :=
  item_code d ∈ code <$> get_template_columns
  ∧ item_date d = dc
  ∧ item_value d ≠ [].

(** Column A of the grid from its third row on: the weeks of the rows. *)
Definition grid_weeks (grid : list (list pystr)) : list pystr :=
  (λ row, default [] (head row)) <$> drop 2 grid.

(** A week key: the ISO year, a hyphen and the two digits of a week between
    1 and 53. *)
Definition is_week_key (s : pystr) : Prop :=
  ∃ iso_year iso_week,
    (0 ≤ iso_year ≤ 10000)%Z ∧ (1 ≤ iso_week ≤ 53)%Z
    ∧ s = str_of_Z iso_year ++ py "-" ++ Datetime.format_02d iso_week
    ∧ length (Datetime.format_02d iso_week) = 2%nat.

(** No table from the current index on has an entry yet. *)
Definition maps_fresh (st : title_state) : Prop :=
  ∀ g, (current_table_index st ≤ g)%nat →
    table_to_subtitle_map st !! g = None ∧ table_to_table_title_map st !! g = None.

(** A line that the scan of a page stops at. *)
Definition line_selected (keywords : list pystr) (line : pystr) : Prop :=
  strip line ≠ [] ∧ any_in primary_exclusion_keywords line = false
  ∧ any_in keywords line = true.

(** The results of the pages of one document that were converted. *)
Definition converted_of (pdf_name : pystr) (page_results : list worker_result)
  : list worker_result :=
  filter (λ r, wr_success r = true ∧ wr_pdf_name r = pdf_name) page_results.

(** Ascending page numbers. *)
Definition pages_ascend (l : list worker_result) : Prop :=
  StronglySorted le (wr_page_number <$> l).

(** Example data of the further statements *)

Definition dated_file : xlsx :=
  {| file_name := py "Jul_2025_Week2_7-7_-_7-11.xlsx";
     file_book := file_book unnamed_file |}.

Definition dated_datum : datum :=
  {| item_code := series_code true (py "JGB10YEARFUTURES") (py "PROPRIETARY")
                    (py "SALES") (py "VALUE");
     item_date := py "2025-28"; item_value := py "100" |}.

Definition two_data : list datum := [ first_datum; second_datum ].

Definition two_data_grid : list (list pystr) :=
  write_grid get_template_columns (build_pivot two_data) (sorted_dates two_data).

Definition scanned_pages : list (option (list pystr)) :=
  [ Some [ py "Options on JGB(10-year) Futures" ];
    Some [ py ""; py "  JGB(10-year) Futures  "; py "mini-20-year JGB Futures" ] ].

Definition page_three : worker_result :=
  Converted (py "Jul_2025_Week2_7-7_-_7-11") 3
    (py "Jul_2025_Week2_7-7_-_7-11_page_3.docx") five_table_page.

Definition page_one : worker_result :=
  Converted (py "Jul_2025_Week2_7-7_-_7-11") 1
    (py "Jul_2025_Week2_7-7_-_7-11_page_1.docx") five_table_page.

(** * Properties *)

Ltac by_vm := compute_done.

(** ** The template *)

Lemma main_columns_length : length main_columns = 48%nat.
Proof. vm_compute. reflexivity. Qed.

Lemma breakdown_columns_length : length breakdown_columns = 64%nat.
Proof. vm_compute. reflexivity. Qed.

Lemma template_codes_NoDup : NoDup (code <$> get_template_columns).
Proof. by_vm. Qed.

Lemma template_length : length get_template_columns = 112%nat.
Proof.
  unfold get_template_columns. rewrite length_app.
  rewrite main_columns_length, breakdown_columns_length. reflexivity.
Qed.

(** C2, as the code has it: the template has 112 columns, 48 of the main
    summary and 64 of the breakdown (4 instruments x 4 categories x 2
    subcategories x 2 metrics), whatever the input: the function takes none. *)
Theorem get_template_columns_length :
  length main_columns = 48%nat ∧ length breakdown_columns = 64%nat
  ∧ length get_template_columns = 112%nat.
Proof.
  split; [apply main_columns_length|].
  split; [apply breakdown_columns_length|apply template_length].
Qed.

(** C2 as stated fails: the template does not have 176 entries. *)
Lemma get_template_columns_not_176 : length get_template_columns ≠ 176%nat.
Proof. rewrite template_length. discriminate. Qed.

(** ** Injectivity of the series codes *)

Lemma NoDup_fmap_inj_on {A B} (f : A → B) (l : list A) :
  NoDup (f <$> l) → ∀ x y, x ∈ l → y ∈ l → f x = f y → x = y.
Proof.
  induction l as [|a l IH]; intros Hnd x y Hx Hy Hxy.
  - inversion Hx.
  - rewrite fmap_cons in Hnd. apply NoDup_cons in Hnd as [Hnotin Hnd].
    apply elem_of_cons in Hx as [->|Hx]; apply elem_of_cons in Hy as [->|Hy].
    + reflexivity.
    + exfalso. apply Hnotin. rewrite Hxy. apply list_elem_of_fmap_2. exact Hy.
    + exfalso. apply Hnotin. rewrite <- Hxy. apply list_elem_of_fmap_2. exact Hx.
    + apply IH; assumption.
Qed.

Lemma tuple_codes_NoDup : NoDup (tuple_code <$> tuple_universe).
Proof. by_vm. Qed.

Lemma tuple_codes_are_template :
  ∀ c, c ∈ tuple_code <$> tuple_universe ↔ c ∈ code <$> get_template_columns.
Proof.
  assert (H1 : Forall (λ c, c ∈ code <$> get_template_columns)
                 (tuple_code <$> tuple_universe)) by by_vm.
  assert (H2 : Forall (λ c, c ∈ tuple_code <$> tuple_universe)
                 (code <$> get_template_columns)) by by_vm.
  intros c. split; intros Hc.
  - rewrite Forall_forall in H1. apply H1. exact Hc.
  - rewrite Forall_forall in H2. apply H2. exact Hc.
Qed.

(** C4, as the code has it: two tuples (instrument, category, subcategory,
    metric) of the enumerations with the same series code are the same
    tuple; the codes of the tuples are the codes of the template, and the
    template, of 112 columns, has no code twice. *)
Theorem series_code_injective :
  ∀ t1 t2, t1 ∈ tuple_universe → t2 ∈ tuple_universe →
    tuple_code t1 = tuple_code t2 →
    t1 = t2
    ∧ (∀ c, c ∈ tuple_code <$> tuple_universe ↔ c ∈ code <$> get_template_columns)
    ∧ NoDup (code <$> get_template_columns)
    ∧ length get_template_columns = 112%nat.
Proof.
  intros t1 t2 H1 H2 Heq.
  split; [eapply NoDup_fmap_inj_on; eauto using tuple_codes_NoDup|].
  split; [apply tuple_codes_are_template|].
  split; [apply template_codes_NoDup|apply template_length].
Qed.

(** C4 as stated fails on the size it gives to the template. *)
Lemma template_not_176_NoDup :
  ¬ (length get_template_columns = 176%nat ∧ NoDup (code <$> get_template_columns)).
Proof. intros [Hlen _]. rewrite template_length in Hlen. discriminate Hlen. Qed.

(** ** The Row Parser *)

Lemma first_match_elem d text en : first_match d text = Some en → en ∈ d.*2.
Proof.
  induction d as [|[jp en'] d IH]; simpl; [discriminate|].
  destruct (str_in jp text).
  - intros [= ->]. apply list_elem_of_here.
  - intros H. apply list_elem_of_further, IH, H.
Qed.

Lemma parse_row_ok is_main ic dc row :
  parse_row is_main ic dc row = Ok (row_data is_main ic dc row).
Proof.
  destruct row as [|c0 [|c1 [|c2 [|c3 [|c4 [|c5 [|c6 [|c7 row]]]]]]]];
    reflexivity.
Qed.

Lemma parse_rows_ok is_main ic dc rows :
  parse_rows is_main ic dc rows = Ok (rows ≫= row_data is_main ic dc).
Proof.
  induction rows as [|row rows IH]; [reflexivity|].
  simpl. rewrite parse_row_ok, IH. reflexivity.
Qed.

(** The scenario of the specification: one PROPRIETARY / SALES row with the
    value 100 and the balance written with the glyph before 50. *)
Example parse_table_scenario :
  _parse_table example_sheet (py "JGB10YEARFUTURES") (py "2023-49") (py "main_summary")
  = Ok [ {| item_code :=
              py "JGBF.TOTAL_PROPRIETARY_BROKERAGE.JGB10YEARFUTURES.TRADINGVALUE.PROPRIETARY.SALES.VALUE.W";
            item_date := py "2023-49"; item_value := py "100" |};
         {| item_code :=
              py "JGBF.TOTAL_PROPRIETARY_BROKERAGE.JGB10YEARFUTURES.TRADINGVALUE.PROPRIETARY.SALES.BALANCE.W";
            item_date := py "2023-49"; item_value := py "-50" |} ].
Proof. vm_compute. reflexivity. Qed.

Lemma emit_metrics_elem is_main ic dc cat sub pairs d :
  d ∈ emit_metrics is_main ic dc cat sub pairs →
  ∃ metric data_val, (metric, data_val) ∈ pairs
    ∧ d = {| item_code := series_code is_main ic cat sub metric;
             item_date := dc;
             item_value := handle_negative_values data_val |}
    ∧ handle_negative_values data_val ≠ [].
Proof.
  unfold emit_metrics. intros Hd.
  apply list_elem_of_bind in Hd as ([metric data_val] & Hd & Hin).
  exists metric, data_val. split; [exact Hin|].
  repeat case_bool_decide; try (inversion Hd; fail).
  apply list_elem_of_singleton in Hd. auto.
Qed.

Lemma parse_fields_elem (is_main : bool) ic dc c0 c1 val bal d :
  d ∈ parse_fields is_main ic dc c0 c1 val bal →
  ∃ cat sub metric data_val,
    cat ∈ (if is_main then main_summary_categories else brokerage_categories).*2
    ∧ sub ∈ subcategories.*2
    ∧ (metric, data_val) ∈ [ (py "VALUE", val); (py "BALANCE", bal) ]
    ∧ d = {| item_code := series_code is_main ic cat sub metric;
             item_date := dc;
             item_value := handle_negative_values data_val |}
    ∧ handle_negative_values data_val ≠ [].
Proof.
  unfold parse_fields.
  destruct (_ || _ || str_in _ _); [intros H; inversion H|].
  destruct (first_match (if is_main then _ else _) _) as [cat|] eqn:Hcat;
    [|intros H; inversion H].
  destruct (first_match subcategories _) as [sub|] eqn:Hsub;
    [|rewrite orb_true_r; intros H; inversion H].
  destruct (_ || _); [intros H; inversion H|].
  intros Hd. apply emit_metrics_elem in Hd as (metric & data_val & Hin & -> & Hne).
  exists cat, sub, metric, data_val.
  eauto 10 using first_match_elem.
Qed.

Lemma row_data_elem is_main ic dc row d :
  d ∈ row_data is_main ic dc row →
  ∃ c0 c1 val bal, row !! 0%nat = Some c0 ∧ row !! 1%nat = Some c1
    ∧ row !! 5%nat = Some val ∧ row !! 7%nat = Some bal
    ∧ d ∈ parse_fields is_main ic dc c0 c1 val bal.
Proof.
  destruct row as [|c0 [|c1 [|c2 [|c3 [|c4 [|c5 [|c6 [|c7 row]]]]]]]];
    simpl; try (intros H; inversion H; fail).
  intros Hd. exists c0, c1, c5, c7. auto.
Qed.

Lemma parser_universe_in_template :
  Forall (λ t, tuple5_code t ∈ code <$> get_template_columns) parser_universe.
Proof. by_vm. Qed.

Lemma parser_tuples_elem (is_main : bool) (ic cat sub metric : pystr) :
  ic ∈ instrument_mapping.*2 →
  cat ∈ (if is_main then main_summary_categories else brokerage_categories).*2 →
  sub ∈ subcategories.*2 →
  metric ∈ metric_list →
  (is_main, ic, cat, sub, metric) ∈ parser_universe.
Proof.
  intros Hic Hcat Hsub Hmetric.
  assert (H : (is_main, ic, cat, sub, metric) ∈ parser_tuples is_main).
  { unfold parser_tuples.
    apply list_elem_of_bind. exists ic. split; [|exact Hic].
    apply list_elem_of_bind. exists cat. split; [|exact Hcat].
    apply list_elem_of_bind. exists sub. split; [|exact Hsub].
    apply list_elem_of_bind. exists metric. split; [|exact Hmetric].
    apply list_elem_of_here. }
  unfold parser_universe. apply elem_of_app.
  destruct is_main; [left|right]; exact H.
Qed.

Lemma series_code_in_template (is_main : bool) (ic cat sub metric : pystr) :
  ic ∈ instrument_mapping.*2 →
  cat ∈ (if is_main then main_summary_categories else brokerage_categories).*2 →
  sub ∈ subcategories.*2 →
  metric ∈ metric_list →
  series_code is_main ic cat sub metric ∈ code <$> get_template_columns.
Proof.
  intros Hic Hcat Hsub Hmetric.
  pose proof parser_universe_in_template as Hall.
  rewrite Forall_forall in Hall.
  apply (Hall (is_main, ic, cat, sub, metric)).
  apply parser_tuples_elem; assumption.
Qed.

(** C1: with an instrument code of the instrument mapping, the Row Parser
    returns a list (it never raises), and the code of every datum of that
    list is the code of a column of the template. *)
Theorem parse_table_codes_in_template :
  ∀ sheet instrument_code date_code table_type,
    instrument_code ∈ instrument_mapping.*2 →
    ∃ results,
      _parse_table sheet instrument_code date_code table_type = Ok results
      ∧ ∀ d, d ∈ results → item_code d ∈ code <$> get_template_columns.
Proof.
  intros sheet ic dc tt Hic. unfold _parse_table.
  rewrite parse_rows_ok. eexists. split; [reflexivity|].
  intros d Hd.
  apply list_elem_of_bind in Hd as (row & Hd & _).
  apply row_data_elem in Hd as (c0 & c1 & val & bal & _ & _ & _ & _ & Hd).
  apply parse_fields_elem in Hd
    as (cat & sub & metric & data_val & Hcat & Hsub & Hmetric & -> & _).
  simpl. apply series_code_in_template; try assumption.
  apply elem_of_cons in Hmetric as [[= -> _]|Hmetric]; [by_vm|].
  apply list_elem_of_singleton in Hmetric as [= -> _]. by_vm.
Qed.

Lemma parse_table_codes_in_template_witness :
  ∃ results,
    _parse_table example_sheet (py "JGB10YEARFUTURES") (py "2023-49") (py "main_summary")
      = Ok results
    ∧ ∀ d, d ∈ results → item_code d ∈ code <$> get_template_columns.
Proof.
  apply (parse_table_codes_in_template example_sheet (py "JGB10YEARFUTURES")
           (py "2023-49") (py "main_summary")).
  vm_compute. apply list_elem_of_here.
Defined.

Lemma series_code_injective_witness :
  example_tuple ∈ tuple_universe ∧ example_tuple = example_tuple.
Proof.
  assert (Hin : example_tuple ∈ tuple_universe) by (vm_compute; repeat constructor).
  split; [exact Hin|].
  exact (proj1 (series_code_injective example_tuple example_tuple Hin Hin eq_refl)).
Defined.

(** ** Sign normalization *)

Lemma lstrip_snoc l x : isspace x = false → lstrip (l ++ [x]) = lstrip l ++ [x].
Proof.
  intros Hx. induction l as [|c l IH]; simpl.
  - rewrite Hx. reflexivity.
  - destruct (isspace c); [exact IH|reflexivity].
Qed.

Lemma strip_glyph s : strip (9650 :: s) = 9650 :: rstrip s.
Proof.
  unfold strip, rstrip. simpl lstrip. simpl rev.
  rewrite lstrip_snoc by reflexivity.
  rewrite rev_unit. reflexivity.
Qed.

Lemma handle_negative_values_glyph s :
  handle_negative_values (CStr (py "▲" ++ s)) = py "-" ++ rstrip s.
Proof.
  change (py "▲" ++ s) with (9650 :: s). change (py "-" ++ rstrip s) with (45 :: rstrip s).
  unfold handle_negative_values, eq_str.
  rewrite !bool_decide_eq_false_2 by discriminate. simpl orb. cbv iota.
  unfold str_of. rewrite strip_glyph. reflexivity.
Qed.

(** C5, as the code has it: None, "-" and the empty string give the empty
    string; a string that starts with the glyph gives "-" followed by the
    rest of the string without its trailing whitespace (so "-1,234" for the
    glyph before "1,234"); a datum of the parse loop carries the normalized
    figure of its cell, which is not empty, and a cell whose normalized
    figure is empty gives no datum. *)
Theorem handle_negative_values_spec :
  handle_negative_values CNone = []
  ∧ handle_negative_values (CStr (py "-")) = []
  ∧ handle_negative_values (CStr []) = []
  ∧ (∀ s, handle_negative_values (CStr (py "▲" ++ s)) = py "-" ++ rstrip s)
  ∧ handle_negative_values (CStr (py "▲1,234")) = py "-1,234"
  ∧ (∀ is_main ic dc cat sub pairs d,
       d ∈ emit_metrics is_main ic dc cat sub pairs →
       item_value d ≠ []
       ∧ ∃ metric data_val,
           (metric, data_val) ∈ pairs
           ∧ item_value d = handle_negative_values data_val)
  ∧ (∀ is_main ic dc cat sub metric data_val,
       handle_negative_values data_val = [] →
       emit_metrics is_main ic dc cat sub [ (metric, data_val) ] = []).
Proof.
  split; [reflexivity|]. split; [reflexivity|]. split; [reflexivity|].
  split; [apply handle_negative_values_glyph|]. split; [reflexivity|].
  split.
  - intros is_main ic dc cat sub pairs d Hd.
    apply emit_metrics_elem in Hd as (metric & data_val & Hin & -> & Hne).
    split; [exact Hne|]. exists metric, data_val. split; [exact Hin|reflexivity].
  - intros is_main ic dc cat sub metric data_val Hempty.
    unfold emit_metrics. simpl. rewrite Hempty. reflexivity.
Qed.

Lemma handle_negative_values_spec_witness :
  emit_metrics true (py "JGB10YEARFUTURES") (py "2023-49") (py "PROPRIETARY")
    (py "SALES") [ (py "VALUE", CStr (py "-")) ] = [].
Proof.
  destruct handle_negative_values_spec as (_ & _ & _ & _ & _ & _ & Hskip).
  apply Hskip. reflexivity.
Defined.

(** C5 as stated fails on a string with trailing whitespace: the result is
    not "-" followed by the whole rest. *)
Lemma handle_negative_values_not_rest :
  ¬ (∀ s, handle_negative_values (CStr (py "▲" ++ s)) = py "-" ++ s).
Proof. intros H. specialize (H (py "1 ")). vm_compute in H. discriminate H. Qed.

(** ** Skipped rows *)

Lemma or_empty_truthy c : truthy c = true → or_empty c = c.
Proof. unfold or_empty. intros ->. reflexivity. Qed.

Lemma or_empty_falsy c : truthy c = false → str_of (or_empty c) = [].
Proof. unfold or_empty. intros ->. reflexivity. Qed.

Lemma parse_fields_lacks_category (is_main : bool) ic dc c0 c1 val bal :
  lacks_label (if is_main then main_summary_categories else brokerage_categories) c0 →
  parse_fields is_main ic dc c0 c1 val bal = [].
Proof.
  unfold parse_fields. intros [Hf|Hnone].
  - rewrite (or_empty_falsy _ Hf). reflexivity.
  - destruct (truthy c0) eqn:Ht.
    + rewrite (or_empty_truthy _ Ht), Hnone. simpl not_opt. simpl orb.
      destruct (_ || _ || _); reflexivity.
    + rewrite (or_empty_falsy _ Ht). reflexivity.
Qed.

Lemma parse_fields_lacks_subcategory (is_main : bool) ic dc c0 c1 val bal :
  lacks_label subcategories c1 ∨ str_in (py "合計") (str_of c1) = true →
  parse_fields is_main ic dc c0 c1 val bal = [].
Proof.
  unfold parse_fields. intros H.
  destruct (truthy c1) eqn:Ht.
  - rewrite (or_empty_truthy _ Ht).
    destruct H as [[Hf|Hnone]|Htotal].
    + congruence.
    + rewrite Hnone. simpl not_opt. rewrite orb_true_r.
      destruct (_ || _ || _); reflexivity.
    + rewrite Htotal, orb_true_r. reflexivity.
  - rewrite (or_empty_falsy _ Ht).
    destruct (bool_decide (str_of (or_empty c0) = [])); reflexivity.
Qed.

Lemma skipped_row_data is_main ic dc row :
  skipped_row is_main row → row_data is_main ic dc row = [].
Proof.
  intros Hskip.
  destruct row as [|c0 [|c1 [|c2 [|c3 [|c4 [|c5 [|c6 [|c7 row]]]]]]]];
    try reflexivity.
  destruct Hskip as [Hlen|[(c & Hc & Hlack)|(c & Hc & Hlack)]].
  - simpl in Hlen. lia.
  - injection Hc as <-. simpl. apply parse_fields_lacks_category, Hlack.
  - injection Hc as <-. simpl. apply parse_fields_lacks_subcategory, Hlack.
Qed.

(** C7: a row with fewer than 8 fields, a row whose category or subcategory
    cell gives no label, and a row whose subcategory cell contains the
    total label are passed over: the loop body returns nothing for the row
    without raising, and the table parses, without raising, to the same
    list as the table without the row. *)
Theorem parse_table_skips_rows :
  ∀ sub before row after instrument_code date_code table_type,
    skipped_row (bool_decide (table_type = py "main_summary")) row →
    parse_row (bool_decide (table_type = py "main_summary"))
      instrument_code date_code row = Ok []
    ∧ ∃ results,
        _parse_table {| subtitle := sub; data_rows := before ++ row :: after |}
          instrument_code date_code table_type = Ok results
        ∧ _parse_table {| subtitle := sub; data_rows := before ++ after |}
            instrument_code date_code table_type = Ok results.
Proof.
  intros sub before row after ic dc tt Hskip.
  split.
  - rewrite parse_row_ok, (skipped_row_data _ _ _ _ Hskip). reflexivity.
  - unfold _parse_table. simpl data_rows. rewrite !parse_rows_ok.
    eexists. split; [reflexivity|].
    rewrite !bind_app, bind_cons, (skipped_row_data _ _ _ _ Hskip).
    reflexivity.
Qed.

Lemma parse_table_skips_rows_witness :
  parse_row (bool_decide (py "main_summary" = py "main_summary"))
    (py "JGB10YEARFUTURES") (py "2023-49") five_field_row = Ok []
  ∧ ∃ results,
      _parse_table
        {| subtitle := []; data_rows := data_rows example_sheet ++ five_field_row :: [] |}
        (py "JGB10YEARFUTURES") (py "2023-49") (py "main_summary") = Ok results
      ∧ _parse_table
          {| subtitle := []; data_rows := data_rows example_sheet ++ [] |}
          (py "JGB10YEARFUTURES") (py "2023-49") (py "main_summary") = Ok results.
Proof.
  apply (parse_table_skips_rows [] (data_rows example_sheet) five_field_row []
           (py "JGB10YEARFUTURES") (py "2023-49") (py "main_summary")).
  left. vm_compute. lia.
Defined.

(** ** Week keys *)

(** [title] on month names as the patterns can capture them: upper case,
    the long s (U+017F) in front, the Kelvin sign (U+212A) inside. *)
Example title_examples :
  title (py "JUL") = py "Jul" ∧ title (py "ſep") = py "Sep"
  ∧ title (py "aKb") = py "Akb" ∧ title (py "SECURITIES cos") = py "Securities Cos".
Proof. repeat split; vm_compute; reflexivity. Qed.

Example isocalendar_examples :
  Datetime.isocalendar {| Datetime.year := 2021; Datetime.month := 1; Datetime.day := 1 |}
    = (2020, 53, 5)%Z
  ∧ Datetime.isocalendar {| Datetime.year := 2021; Datetime.month := 1; Datetime.day := 4 |}
    = (2021, 1, 1)%Z
  ∧ Datetime.isocalendar {| Datetime.year := 2018; Datetime.month := 12; Datetime.day := 31 |}
    = (2019, 1, 1)%Z
  ∧ Datetime.isocalendar {| Datetime.year := 2023; Datetime.month := 12; Datetime.day := 8 |}
    = (2023, 49, 5)%Z
  ∧ Datetime.isocalendar {| Datetime.year := 2024; Datetime.month := 2; Datetime.day := 29 |}
    = (2024, 9, 4)%Z.
Proof. repeat split; vm_compute; reflexivity. Qed.

(** The first pattern reads month and day from the two numbers after the
    week; the third pattern; an impossible date; and a name the first
    pattern reads as month 31, which the second pattern reads as the 31st
    of January. *)
Example extract_date_examples :
  extract_date_from_filename no_decimal (py "Dec_2023_Week2_8-12") = py "2023-32"
  ∧ extract_date_from_filename no_decimal (py "x_Dec._8_2023_-_Week_2") = py "2023-49"
  ∧ extract_date_from_filename no_decimal (py "_2023_Week5_2-30") = UNKNOWN_DATE
  ∧ extract_date_from_filename no_decimal (py "Jan_2024_WEEK1_31-1") = py "2024-05".
Proof. repeat split; vm_compute; reflexivity. Qed.

Example process_single_file_example :
  process_single_file no_decimal ascii_only_lower
    {| file_name := py "Jul_2025_Week2_7-7_-_7-11.xlsx"; file_book := file_book unnamed_file |}
  = [ {| item_code :=
           py "JGBF.TOTAL_PROPRIETARY_BROKERAGE.JGB10YEARFUTURES.TRADINGVALUE.PROPRIETARY.SALES.VALUE.W";
         item_date := py "2025-28"; item_value := py "100" |};
      {| item_code :=
           py "JGBF.TOTAL_PROPRIETARY_BROKERAGE.JGB10YEARFUTURES.TRADINGVALUE.PROPRIETARY.SALES.BALANCE.W";
         item_date := py "2025-28"; item_value := py "-50" |} ].
Proof. vm_compute. reflexivity. Qed.

Section CodecProperties.

Variable unicode_decimal : N → option N.
Variable str_lower : pystr → pystr.
Variable unicode_isalnum : N → bool.

(** C3: the week key is a function of the file name alone; the PDF name
    made from the report label has the stem Jul_2025_Week2_7-7_-_7-11,
    which contains Jul_2025_Week2_7-7, and this stem parses to 2025-28, the
    ISO year and week of Monday 2025-07-07. *)
Theorem week_key_of_report_label :
  ∀ f1 f2, f1 = f2 →
    extract_date_from_filename unicode_decimal f1
      = extract_date_from_filename unicode_decimal f2
    ∧ path_stem (generate_filename unicode_isalnum report_label (py "pdf"))
        = py "Jul_2025_Week2_7-7_-_7-11"
    ∧ str_in (py "Jul_2025_Week2_7-7") (py "Jul_2025_Week2_7-7_-_7-11") = true
    ∧ Datetime.isocalendar {| Datetime.year := 2025; Datetime.month := 7; Datetime.day := 7 |}
        = (2025, 28, 1)%Z
    ∧ extract_date_from_filename unicode_decimal (py "Jul_2025_Week2_7-7_-_7-11")
        = py "2025-28".
Proof.
  intros f1 f2 ->. split; [reflexivity|].
  repeat split; vm_compute; reflexivity.
Qed.

(** C8: a file name that matches none of the three patterns gives the
    sentinel (the function returns a string on every input: what its
    [try] blocks raise is caught there), and a file whose name gives the
    sentinel contributes the empty list. *)
Theorem unknown_date_skips_file :
  ∀ filename file,
    Re.search (pattern1 unicode_decimal) filename = None →
    Re.search (pattern2 unicode_decimal) filename = None →
    Re.search (pattern3 unicode_decimal) filename = None →
    extract_date_from_filename unicode_decimal filename = UNKNOWN_DATE
    ∧ (extract_date_from_filename unicode_decimal (path_stem (file_name file))
         = UNKNOWN_DATE →
       process_single_file unicode_decimal str_lower file = []).
Proof.
  intros filename file H1 H2 H3. split.
  - unfold extract_date_from_filename, try_match1, try_match2, try_match3.
    rewrite H1, H2, H3. reflexivity.
  - intros Hunknown. unfold process_single_file.
    rewrite Hunknown. rewrite bool_decide_eq_true_2 by reflexivity. reflexivity.
Qed.

End CodecProperties.

Lemma week_key_of_report_label_witness :
  extract_date_from_filename no_decimal (py "Jul_2025_Week2_7-7_-_7-11") = py "2025-28".
Proof.
  exact (proj2 (proj2 (proj2 (proj2
    (week_key_of_report_label no_decimal no_alnum
       (py "Jul_2025_Week2_7-7_-_7-11") (py "Jul_2025_Week2_7-7_-_7-11") eq_refl))))).
Defined.

Lemma unknown_date_skips_file_witness :
  extract_date_from_filename no_decimal (py "report") = UNKNOWN_DATE
  ∧ process_single_file no_decimal ascii_only_lower unnamed_file = [].
Proof.
  destruct (unknown_date_skips_file no_decimal ascii_only_lower (py "report") unnamed_file)
    as [Hsentinel Hskip]; try (vm_compute; reflexivity).
  split; [exact Hsentinel|]. apply Hskip. vm_compute. reflexivity.
Defined.

(** ** Titles of the tables of a page *)

Lemma pad_titles_length fuel found :
  (length found ≤ 4)%nat → (4 - length found ≤ fuel)%nat →
  length (pad_titles fuel found) = 4%nat.
Proof.
  revert found. induction fuel as [|fuel IH]; intros found Hle Hfuel; simpl.
  - lia.
  - change (length table_keywords) with 4%nat.
    destruct (Nat.ltb_spec (length found) 4) as [Hlt|Hge]; [|lia].
    apply IH; rewrite length_app; simpl; lia.
Qed.

Lemma bind_length_le {A B} (g : A → list B) (l : list A) :
  (∀ x, length (g x) ≤ 1)%nat → (length (l ≫= g) ≤ length l)%nat.
Proof.
  intros Hg. induction l as [|a l IH]; [simpl; lia|].
  rewrite bind_cons, length_app. specialize (Hg a). simpl length. lia.
Qed.

Lemma extract_table_titles_length text :
  length (extract_table_titles_from_text text) = 4%nat.
Proof.
  unfold extract_table_titles_from_text.
  apply pad_titles_length.
  - etrans; [apply bind_length_le|].
    + intros [keyword full_title]. destruct (str_in keyword text); simpl; lia.
    + change (length (zip table_keywords table_section_titles)) with 4%nat. lia.
  - change (length table_keywords) with 4%nat. lia.
Qed.

(** Two of the four keywords on the page: the titles found move to the
    front and the labels of the loop fill the list. *)
Example extract_table_titles_example :
  extract_table_titles_from_text (py "委託内訳 / 金融機関内訳")
  = [ py "委託内訳 Breakdown of Brokerage";
      py "金融機関内訳 Breakdown of Financial Institutions";
      py "Table Title 3 (Not Found)"; py "Table Title 4 (Not Found)" ].
Proof. vm_compute. reflexivity. Qed.

Lemma assign_tables_spec r n st :
  current_table_index (foldl (assign_table r) st (seq 0 n))
    = (current_table_index st + n)%nat
  ∧ ∀ g, table_to_table_title_map (foldl (assign_table r) st (seq 0 n)) !! g =
      if bool_decide (current_table_index st ≤ g < current_table_index st + n)%nat
      then Some (title_of_table (table_titles r) (g - current_table_index st))
      else table_to_table_title_map st !! g.
Proof.
  induction n as [|n [IHidx IHmap]].
  - simpl. split; [lia|]. intros g. rewrite bool_decide_eq_false_2 by lia. reflexivity.
  - rewrite seq_S, foldl_app. simpl. split; [rewrite IHidx; lia|].
    intros g. rewrite IHidx.
    destruct (decide (g = current_table_index st + n)%nat) as [->|Hne].
    + rewrite lookup_insert_eq. rewrite bool_decide_eq_true_2 by lia.
      do 2 f_equal. lia.
    + rewrite lookup_insert_ne by lia. rewrite IHmap.
      repeat case_bool_decide; try reflexivity; lia.
Qed.

Lemma assign_pages_index pages st :
  current_table_index (foldl assign_page st pages)
    = (current_table_index st + sum_list (table_count <$> pages))%nat.
Proof.
  revert st. induction pages as [|r pages IH]; intros st; [simpl; lia|].
  rewrite fmap_cons. cbn [foldl sum_list sum_list_with].
  rewrite IH. unfold assign_page.
  rewrite (proj1 (assign_tables_spec r (table_count r) st)). unfold id. lia.
Qed.

Lemma assign_pages_preserve pages st g :
  (g < current_table_index st)%nat →
  table_to_table_title_map (foldl assign_page st pages) !! g
    = table_to_table_title_map st !! g.
Proof.
  revert st. induction pages as [|r pages IH]; intros st Hlt; cbn [foldl]; [reflexivity|].
  destruct (assign_tables_spec r (table_count r) st) as [Hidx Hmap].
  rewrite IH by (unfold assign_page; rewrite Hidx; lia).
  unfold assign_page. rewrite Hmap. rewrite bool_decide_eq_false_2 by lia. reflexivity.
Qed.

(** C9, as the code has it: the [i]-th table of a page gets the title of
    slot [i mod 4] of the title list of the page; the label by index is
    used only when the list has no entry at that slot, and the list that
    [extract_table_titles_from_text] returns always has four entries, so
    the tables of a page with three or five tables are given its entries
    as well (a fifth table takes the first entry again). *)
Theorem table_titles_by_slot :
  ∀ before result after i,
    (i < table_count result)%nat →
    table_to_table_title_map (assign_titles (before ++ result :: after))
      !! (sum_list (table_count <$> before) + i)%nat
      = Some (title_of_table (table_titles result) i)
    ∧ ((i mod 4 < length (table_titles result))%nat →
       table_titles result !! (i mod 4)%nat
         = Some (title_of_table (table_titles result) i))
    ∧ ((length (table_titles result) ≤ i mod 4)%nat →
       title_of_table (table_titles result) i
         = py "Table Title " ++ str_of_nat (i mod 4 + 1))
    ∧ (∀ text, table_titles result = extract_table_titles_from_text text →
       length (table_titles result) = 4%nat
       ∧ table_titles result !! (i mod 4)%nat
           = Some (title_of_table (table_titles result) i)).
Proof.
  intros before result after i Hi.
  assert (Hslot : (i mod 4 < length (table_titles result))%nat →
            table_titles result !! (i mod 4)%nat
              = Some (title_of_table (table_titles result) i)).
  { intros Hlt. unfold title_of_table. cbv zeta.
    destruct (Nat.ltb_spec (i mod 4) (length (table_titles result))) as [_|Hge]; [|lia].
    destruct (lookup_lt_is_Some_2 _ _ Hlt) as [t Ht]. rewrite Ht. reflexivity. }
  split; [|split; [exact Hslot|split]].
  - unfold assign_titles. rewrite foldl_app. simpl foldl.
    set (st := foldl assign_page _ before).
    assert (Hst : current_table_index st = sum_list (table_count <$> before)).
    { unfold st. rewrite assign_pages_index. reflexivity. }
    destruct (assign_tables_spec result (table_count result) st) as [Hidx Hmap].
    rewrite assign_pages_preserve by (unfold assign_page; rewrite Hidx; lia).
    unfold assign_page. rewrite Hmap, Hst.
    rewrite bool_decide_eq_true_2 by lia. do 2 f_equal. lia.
  - intros Hge. unfold title_of_table. cbv zeta.
    destruct (Nat.ltb_spec (i mod 4) (length (table_titles result))) as [Hlt|_]; [lia|].
    reflexivity.
  - intros text Htext.
    assert (Hlen : length (table_titles result) = 4%nat).
    { rewrite Htext. apply extract_table_titles_length. }
    split; [exact Hlen|]. apply Hslot. rewrite Hlen.
    apply Nat.mod_upper_bound. discriminate.
Qed.

Lemma table_titles_by_slot_witness :
  table_to_table_title_map (assign_titles ([] ++ five_table_page :: []))
    !! (sum_list (table_count <$> []) + 4)%nat
    = Some (title_of_table (table_titles five_table_page) 4).
Proof.
  assert (Hlt : (4 < table_count five_table_page)%nat) by (vm_compute; lia).
  exact (proj1 (table_titles_by_slot [] five_table_page [] 4%nat Hlt)).
Defined.

(** C9 as stated fails: on a page with five tables the fifth table gets the
    first section title of the page, not a label by index. *)
Lemma five_tables_no_fallback :
  ¬ (∀ text n i, n ≠ 4%nat → (i < n)%nat →
       title_of_table (extract_table_titles_from_text text) i
         = py "Table Title " ++ str_of_nat (i mod 4 + 1)).
Proof.
  intros H. specialize (H full_page_text 5%nat 4%nat).
  assert (Hne : 5%nat ≠ 4%nat) by discriminate.
  assert (Hlt : (4 < 5)%nat) by lia.
  specialize (H Hne Hlt). vm_compute in H. discriminate H.
Qed.

(** ** The consolidation pivot *)

Lemma pivot_get_empty c d : pivot_get ∅ c d = [].
Proof. unfold pivot_get. rewrite lookup_empty. simpl. rewrite lookup_empty. reflexivity. Qed.

Lemma pivot_get_store p x c d :
  pivot_get (pivot_store p x) c d
    = if bool_decide (same_key c d x) then item_value x else pivot_get p c d.
Proof.
  unfold pivot_get, pivot_store, same_key.
  destruct (decide (item_code x = c)) as [<-|Hc].
  - rewrite lookup_insert_eq. simpl.
    destruct (decide (item_date x = d)) as [<-|Hd].
    + rewrite lookup_insert_eq. rewrite bool_decide_eq_true_2 by done. reflexivity.
    + rewrite lookup_insert_ne by done.
      rewrite bool_decide_eq_false_2 by (intros [_ ?]; done). reflexivity.
  - rewrite lookup_insert_ne by done.
    rewrite bool_decide_eq_false_2 by (intros [? _]; done). reflexivity.
Qed.

Lemma pivot_get_foldl_other l p c d :
  (∀ x, x ∈ l → ¬ same_key c d x) →
  pivot_get (foldl pivot_store p l) c d = pivot_get p c d.
Proof.
  revert p. induction l as [|y l IH]; intros p Hl; cbn [foldl]; [reflexivity|].
  rewrite IH by (intros x Hx; apply Hl, list_elem_of_further, Hx).
  rewrite pivot_get_store.
  rewrite bool_decide_eq_false_2 by (apply Hl, list_elem_of_here). reflexivity.
Qed.

Lemma pivot_get_last before x after :
  (∀ y, y ∈ after → ¬ same_key (item_code x) (item_date x) y) →
  pivot_get (build_pivot (before ++ x :: after)) (item_code x) (item_date x)
    = item_value x.
Proof.
  intros Hafter. unfold build_pivot. rewrite foldl_app. cbn [foldl].
  rewrite pivot_get_foldl_other by exact Hafter.
  rewrite pivot_get_store.
  rewrite bool_decide_eq_true_2 by (split; reflexivity). reflexivity.
Qed.

Lemma pivot_get_cases l c d :
  (∃ x, x ∈ l ∧ same_key c d x ∧ pivot_get (build_pivot l) c d = item_value x)
  ∨ ((∀ x, x ∈ l → ¬ same_key c d x) ∧ pivot_get (build_pivot l) c d = []).
Proof.
  induction l as [|x l IH] using rev_ind.
  - right. split; [intros x Hx; inversion Hx|apply pivot_get_empty].
  - unfold build_pivot. rewrite foldl_snoc, pivot_get_store. fold (build_pivot l).
    case_bool_decide as Hkey.
    + left. exists x. split; [apply elem_of_app; right; apply list_elem_of_here|].
      split; [exact Hkey|reflexivity].
    + destruct IH as [(y & Hy & Hykey & Hget)|[Hnone Hget]].
      * left. exists y. split; [apply elem_of_app; left; exact Hy|].
        split; [exact Hykey|exact Hget].
      * right. split; [|exact Hget].
        intros y Hy. apply elem_of_app in Hy as [Hy|Hy]; [apply Hnone, Hy|].
        apply list_elem_of_singleton in Hy as ->. exact Hkey.
Qed.

Lemma elem_of_sorted_dates l d :
  d ∈ sorted_dates l ↔ d ≠ UNKNOWN_DATE ∧ ∃ x, x ∈ l ∧ item_date x = d.
Proof.
  unfold sorted_dates. rewrite merge_sort_Permutation.
  rewrite list_elem_of_filter, elem_of_elements, elem_of_list_to_set, list_elem_of_fmap.
  split; intros [Hne (x & Hx & Hd)]; (split; [exact Hne|]); exists x; auto.
Qed.

Lemma str_leb_total a b : str_leb a b = true ∨ str_leb b a = true.
Proof.
  revert b. induction a as [|x a IH]; intros [|y b]; simpl; auto.
  destruct (N.ltb_spec x y) as [Hxy|Hxy]; [left; reflexivity|].
  destruct (N.ltb_spec y x) as [Hyx|Hyx]; [right; reflexivity|].
  assert (x = y) as -> by lia. rewrite N.eqb_refl. simpl. apply IH.
Qed.

Lemma str_le_total : Total str_le.
Proof.
  intros a b. unfold str_le.
  destruct (str_leb_total a b) as [->| ->]; [left|right]; exact I.
Qed.

Lemma sorted_dates_Sorted l : Sorted str_le (sorted_dates l).
Proof. unfold sorted_dates. apply (@Sorted_merge_sort _ str_le _ str_le_total). Qed.

Lemma write_grid_ext template p p' dates :
  (∀ c d, pivot_get p c d = pivot_get p' c d) →
  write_grid template p dates = write_grid template p' dates.
Proof.
  intros Hget. unfold write_grid. do 2 f_equal.
  apply list_fmap_ext. intros _ date _. f_equal.
  apply list_fmap_ext. intros _ col _. apply Hget.
Qed.

Lemma list_find_row (mk : pystr → list pystr) (dates : list pystr) (date : pystr) :
  (∀ d, head (mk d) = Some d) →
  date ∈ dates →
  ∃ i, list_find (λ r : list pystr, head r = Some date) (mk <$> dates)
         = Some (i, mk date).
Proof.
  intros Hmk Hdate.
  assert (Hrow : mk date ∈ mk <$> dates) by (apply list_elem_of_fmap_2, Hdate).
  destruct (list_find_elem_of (λ r : list pystr, head r = Some date) _ _ Hrow (Hmk date))
    as [[i row] Hi].
  exists i. rewrite Hi.
  apply list_find_Some in Hi as (Hi & Hhead & _).
  apply list_lookup_fmap_Some in Hi as (date' & -> & _).
  rewrite Hmk in Hhead. injection Hhead as ->. reflexivity.
Qed.

Lemma grid_cell_write_grid template p dates date c :
  date ∈ dates →
  c ∈ code <$> template →
  grid_cell (write_grid template p dates) date c = Some (pivot_get p c date).
Proof.
  intros Hdate Hc.
  unfold grid_cell, write_grid. cbn [lookup list_lookup drop mbind option_bind tail].
  destruct (list_find_elem_of (λ h, h = c) _ c Hc eq_refl) as [[j c'] Hj].
  rewrite Hj. cbn [mbind option_bind].
  apply list_find_Some in Hj as (Hj & -> & _).
  apply list_lookup_fmap_Some in Hj as (col & Hcode & Hcol).
  rewrite drop_0.
  match goal with
  | |- context [list_find _ (?mk <$> dates)] =>
      destruct (list_find_row mk dates date (λ d, eq_refl) Hdate) as [i Hi]
  end.
  rewrite Hi. cbn [mbind option_bind tail].
  rewrite list_lookup_fmap, Hcol. cbn [fmap option_fmap option_map]. rewrite <- Hcode.
  reflexivity.
Qed.

Lemma generate_output_file_Some l grid :
  generate_output_file l = Some grid →
  grid = write_grid get_template_columns (build_pivot l) (sorted_dates l).
Proof.
  unfold generate_output_file.
  destruct (bool_decide (l = [])); [discriminate|].
  destruct (bool_decide (sorted_dates l = [])); [discriminate|].
  intros H. apply Some_inj in H. symmetry. exact H.
Qed.

Lemma grid_cell_generated l grid date c :
  generate_output_file l = Some grid →
  date ∈ sorted_dates l →
  c ∈ code <$> get_template_columns →
  grid_cell grid date c = Some (pivot_get (build_pivot l) c date).
Proof.
  intros Hgen Hdate Hc. apply generate_output_file_Some in Hgen as ->.
  apply grid_cell_write_grid; assumption.
Qed.

(** C10: when two data of the list have the same code and the same week and
    different values, and none after the second has that code and week, the
    cell of that week and code holds the value of the second. *)
Theorem last_write_wins :
  ∀ before d1 mid d2 after,
    item_code d1 = item_code d2 → item_date d1 = item_date d2 →
    item_value d1 ≠ item_value d2 →
    (∀ x, x ∈ after → ¬ same_key (item_code d2) (item_date d2) x) →
    item_code d2 ∈ code <$> get_template_columns →
    item_date d2 ≠ UNKNOWN_DATE →
    ∃ grid,
      generate_output_file (before ++ d1 :: mid ++ d2 :: after) = Some grid
      ∧ grid_cell grid (item_date d2) (item_code d2) = Some (item_value d2)
      ∧ grid_cell grid (item_date d1) (item_code d1) ≠ Some (item_value d1).
Proof.
  intros before d1 mid d2 after Hcode Hdate Hvalue Hafter Htemplate Hknown.
  set (l := before ++ d1 :: mid ++ d2 :: after).
  assert (Hl : l = (before ++ d1 :: mid) ++ d2 :: after).
  { unfold l. rewrite <- app_assoc. reflexivity. }
  assert (Hin : item_date d2 ∈ sorted_dates l).
  { apply elem_of_sorted_dates. split; [exact Hknown|]. exists d2.
    split; [|reflexivity]. rewrite Hl. apply elem_of_app. right. apply list_elem_of_here. }
  assert (Hgen : ∃ grid, generate_output_file l = Some grid).
  { unfold generate_output_file.
    rewrite bool_decide_eq_false_2
      by (rewrite Hl; intros H; apply app_eq_nil in H as [_ H]; discriminate H).
    rewrite bool_decide_eq_false_2 by (intros H; rewrite H in Hin; inversion Hin).
    eexists. reflexivity. }
  destruct Hgen as [grid Hgen]. exists grid. split; [exact Hgen|].
  assert (Hcell : grid_cell grid (item_date d2) (item_code d2) = Some (item_value d2)).
  { rewrite (grid_cell_generated l grid _ _ Hgen Hin Htemplate).
    rewrite Hl, pivot_get_last by exact Hafter. reflexivity. }
  split; [exact Hcell|].
  rewrite Hcode, Hdate, Hcell. intros [= Heq]. apply Hvalue. symmetry. exact Heq.
Qed.

Lemma last_write_wins_witness :
  ∃ grid,
    generate_output_file ([] ++ first_datum :: [] ++ second_datum :: []) = Some grid
    ∧ grid_cell grid (item_date second_datum) (item_code second_datum)
        = Some (item_value second_datum)
    ∧ grid_cell grid (item_date first_datum) (item_code first_datum)
        ≠ Some (item_value first_datum).
Proof.
  apply (last_write_wins [] first_datum [] second_datum []).
  - vm_compute. reflexivity.
  - vm_compute. reflexivity.
  - vm_compute. discriminate.
  - intros x Hx. inversion Hx.
  - vm_compute. apply list_elem_of_here.
  - vm_compute. discriminate.
Defined.

(** C6, as the code has it: when no two data of the list give different
    values to the same code and week, every permutation of the list gives
    the same worksheet (the same header rows, the same rows of sorted
    weeks, the same cells), and the weeks of the rows are in ascending
    order. *)
Theorem consolidation_order_insensitive :
  ∀ l l', l ≡ₚ l' → consistent l →
    generate_output_file l = generate_output_file l'
    ∧ Sorted str_le (sorted_dates l).
Proof.
  intros l l' Hperm Hcons. split; [|apply sorted_dates_Sorted].
  assert (Hdates : sorted_dates l = sorted_dates l').
  { assert (Hset : (list_to_set (item_date <$> l) : gset pystr)
                     = list_to_set (item_date <$> l')).
    { apply list_to_set_perm_L, fmap_Permutation, Hperm. }
    unfold sorted_dates. cbv zeta. rewrite Hset. reflexivity. }
  assert (Hget : ∀ c d, pivot_get (build_pivot l) c d = pivot_get (build_pivot l') c d).
  { intros c d.
    destruct (pivot_get_cases l c d) as [(x & Hx & [Hxc Hxd] & ->)|[Hnone ->]];
      destruct (pivot_get_cases l' c d) as [(y & Hy & [Hyc Hyd] & ->)|[Hnone' ->]].
    - apply Hcons; [exact Hx|rewrite Hperm; exact Hy|congruence|congruence].
    - exfalso. apply (Hnone' x); [rewrite <- Hperm; exact Hx|split; assumption].
    - exfalso. apply (Hnone y); [rewrite Hperm; exact Hy|split; assumption].
    - reflexivity. }
  unfold generate_output_file. rewrite <- Hdates.
  rewrite (bool_decide_ext (l = []) (l' = [])).
  2:{ split; intros ->.
      - apply Permutation.Permutation_nil. exact Hperm.
      - apply Permutation.Permutation_nil. symmetry. exact Hperm. }
  destruct (bool_decide (l' = [])); [reflexivity|].
  destruct (bool_decide (sorted_dates l = [])); [reflexivity|].
  f_equal. apply write_grid_ext, Hget.
Qed.

Lemma consolidation_order_insensitive_witness :
  generate_output_file [first_datum; {| item_code := item_code first_datum;
                                        item_date := py "2023-50";
                                        item_value := py "7" |}]
  = generate_output_file [{| item_code := item_code first_datum;
                             item_date := py "2023-50";
                             item_value := py "7" |}; first_datum].
Proof.
  refine (proj1 (consolidation_order_insensitive _ _ (perm_swap _ _ []) _)).
  intros x y Hx Hy _ Hdate.
  apply elem_of_cons in Hx as [->|Hx]; apply elem_of_cons in Hy as [->|Hy];
    try reflexivity;
    try (apply list_elem_of_singleton in Hx as ->);
    try (apply list_elem_of_singleton in Hy as ->);
    try reflexivity; vm_compute in Hdate; discriminate Hdate.
Defined.

(** C6 as stated fails: two data with the same code and week and different
    values give a different cell when their order is exchanged. *)
Lemma consolidation_order_matters :
  ¬ (∀ l l', l ≡ₚ l' → generate_output_file l = generate_output_file l').
Proof.
  intros H.
  specialize (H [first_datum; second_datum] [second_datum; first_datum]
                (perm_swap _ _ [])).
  apply (f_equal (λ r, r ≫= λ grid, grid_cell grid (py "2023-49") (item_code first_datum)))
    in H.
  vm_compute in H. discriminate H.
Qed.

(** ** Instruments and the data of one file *)

Lemma extract_instrument_in_mapping str_lower subtitle ic :
  extract_instrument_from_subtitle str_lower subtitle = Some ic →
  ic ∈ instrument_mapping.*2.
Proof.
  unfold extract_instrument_from_subtitle.
  repeat match goal with |- context [if ?b then _ else _] => destruct b end;
    intros [= <-]; compute_done.
Qed.

Lemma metric_in_list metric (val bal : cell) data_val :
  (metric, data_val) ∈ [ (py "VALUE", val); (py "BALANCE", bal) ] →
  metric ∈ metric_list.
Proof.
  intros H. apply elem_of_cons in H as [[= -> _]|H]; [compute_done|].
  apply list_elem_of_singleton in H as [= -> _]. compute_done.
Qed.

Lemma row_data_ok (is_main : bool) ic dc row d :
  ic ∈ instrument_mapping.*2 →
  d ∈ row_data is_main ic dc row → datum_ok dc d.
Proof.
  intros Hic Hd.
  apply row_data_elem in Hd as (c0 & c1 & val & bal & _ & _ & _ & _ & Hd).
  apply parse_fields_elem in Hd
    as (cat & sub & metric & data_val & Hcat & Hsub & Hmetric & -> & Hne).
  split; [|split; [reflexivity|exact Hne]].
  simpl. apply series_code_in_template; try assumption.
  eapply metric_in_list, Hmetric.
Qed.

Lemma parse_table_ok sheet ic dc tt results d :
  ic ∈ instrument_mapping.*2 →
  _parse_table sheet ic dc tt = Ok results →
  d ∈ results → datum_ok dc d.
Proof.
  intros Hic. unfold _parse_table. rewrite parse_rows_ok. intros [= <-] Hd.
  apply list_elem_of_bind in Hd as (row & Hd & _).
  eapply row_data_ok; eauto.
Qed.

Lemma process_sheets_ok sl file dc sheets acc :
  Forall (datum_ok dc) acc →
  Forall (datum_ok dc) (process_sheets sl file dc sheets acc).
Proof.
  revert acc. induction sheets as [|[name ws] sheets IH]; intros acc Hacc; simpl;
    [exact Hacc|].
  destruct (table_type_of name) as [tt|]; [|apply IH, Hacc].
  destruct (read_excel_sheet file name) as [sheet|]; [|apply IH, Hacc].
  destruct (extract_instrument_from_subtitle sl (subtitle sheet)) as [ic|] eqn:Hic;
    [|apply IH, Hacc].
  destruct (_parse_table sheet ic dc tt) as [parsed|e] eqn:Hparse; [|exact Hacc].
  apply IH. apply Forall_app. split; [exact Hacc|].
  apply Forall_forall. intros d Hd.
  eapply parse_table_ok; eauto using extract_instrument_in_mapping.
Qed.

(** X1: whatever the workbook holds, every datum that [process_single_file]
    returns has a code of the template, the week key of the file name, which
    is not the sentinel, and a value that is not empty. *)
Theorem process_single_file_data :
  ∀ unicode_decimal str_lower file d,
    d ∈ process_single_file unicode_decimal str_lower file →
    item_code d ∈ code <$> get_template_columns
    ∧ item_date d = extract_date_from_filename unicode_decimal (path_stem (file_name file))
    ∧ item_date d ≠ UNKNOWN_DATE
    ∧ item_value d ≠ [].
Proof.
  intros ud sl file d. unfold process_single_file.
  case_bool_decide as Hdate; [intros H; inversion H|].
  destruct (file_book file) as [sheets|]; [|intros H; inversion H].
  intros Hd.
  pose proof (process_sheets_ok sl file
                (extract_date_from_filename ud (path_stem (file_name file)))
                sheets [] (Forall_nil_2 _)) as Hall.
  rewrite Forall_forall in Hall. destruct (Hall d Hd) as (Hcode & Hd' & Hvalue).
  split; [exact Hcode|]. split; [exact Hd'|]. split; [|exact Hvalue].
  rewrite Hd'. exact Hdate.
Qed.

Lemma process_single_file_data_witness :
  item_code dated_datum ∈ code <$> get_template_columns
  ∧ item_date dated_datum
    = extract_date_from_filename no_decimal (path_stem (file_name dated_file))
  ∧ item_date dated_datum ≠ UNKNOWN_DATE
  ∧ item_value dated_datum ≠ [].
Proof.
  apply (process_single_file_data no_decimal ascii_only_lower dated_file dated_datum).
  apply list_elem_of_In. vm_compute. left. reflexivity.
Defined.

(** ** More on the Row Parser *)

Lemma bind_length_bound {A B} (k : nat) (g : A → list B) (l : list A) :
  (∀ x, length (g x) ≤ k)%nat → (length (l ≫= g) ≤ k * length l)%nat.
Proof.
  intros Hg. induction l as [|a l IH]; [simpl; lia|].
  rewrite bind_cons, length_app. specialize (Hg a). simpl length. lia.
Qed.

Lemma emit_metrics_length (is_main : bool) ic dc cat sub pairs :
  (length (emit_metrics is_main ic dc cat sub pairs) ≤ length pairs)%nat.
Proof.
  unfold emit_metrics.
  etrans; [apply (bind_length_bound 1)|lia].
  intros [metric data_val]. repeat case_bool_decide; simpl; lia.
Qed.

Lemma row_data_length (is_main : bool) ic dc row :
  (length (row_data is_main ic dc row) ≤ 2)%nat.
Proof.
  destruct row as [|c0 [|c1 [|c2 [|c3 [|c4 [|c5 [|c6 [|c7 row]]]]]]]];
    cbn [row_data length]; try lia.
  unfold parse_fields. cbv zeta.
  destruct (_ || _ || str_in _ _); [cbn [length]; lia|].
  destruct (_ || _); [cbn [length]; lia|].
  etrans; [apply emit_metrics_length|]. cbn [length]. lia.
Qed.

(** X2: [_parse_table] returns at most two data per row; each carries the
    week key it was given and the normalized figure, not empty, of the
    sixth or the eighth cell of a row of the sheet. *)
Theorem parse_table_data :
  ∀ sheet instrument_code date_code table_type,
    ∃ results,
      _parse_table sheet instrument_code date_code table_type = Ok results
      ∧ (length results ≤ 2 * length (data_rows sheet))%nat
      ∧ ∀ d, d ∈ results →
          item_date d = date_code ∧ item_value d ≠ []
          ∧ ∃ row c, row ∈ data_rows sheet
              ∧ (row !! 5%nat = Some c ∨ row !! 7%nat = Some c)
              ∧ item_value d = handle_negative_values c.
Proof.
  intros sheet ic dc tt. unfold _parse_table. rewrite parse_rows_ok.
  eexists. split; [reflexivity|]. split.
  - apply bind_length_bound. intros row. apply row_data_length.
  - intros d Hd. apply list_elem_of_bind in Hd as (row & Hd & Hrow).
    apply row_data_elem in Hd as (c0 & c1 & val & bal & _ & _ & Hval & Hbal & Hd).
    apply parse_fields_elem in Hd
      as (cat & sub & metric & data_val & _ & _ & Hmetric & -> & Hne).
    split; [reflexivity|]. split; [exact Hne|].
    exists row, data_val. split; [exact Hrow|]. split; [|reflexivity].
    apply elem_of_cons in Hmetric as [[= _ ->]|Hmetric]; [left; exact Hval|].
    apply list_elem_of_singleton in Hmetric as [= _ ->]. right. exact Hbal.
Qed.

(** ** Sign normalization: the shape of the result *)

Lemma lstrip_idem s : lstrip (lstrip s) = lstrip s.
Proof.
  induction s as [|c s IH]; [reflexivity|].
  simpl. destruct (isspace c) eqn:Hc; [exact IH|]. simpl. rewrite Hc. reflexivity.
Qed.

Lemma rstrip_cons x s : isspace x = false → rstrip (x :: s) = x :: rstrip s.
Proof.
  intros Hx. unfold rstrip. simpl rev.
  rewrite lstrip_snoc by exact Hx. rewrite rev_unit. reflexivity.
Qed.

Lemma rstrip_idem s : rstrip (rstrip s) = rstrip s.
Proof. unfold rstrip. rewrite rev_involutive, lstrip_idem. reflexivity. Qed.

Lemma strip_idem s : strip (strip s) = strip s.
Proof.
  unfold strip.
  destruct (lstrip s) as [|x t] eqn:Hl; [reflexivity|].
  assert (Hx : isspace x = false).
  { pose proof (lstrip_idem s) as Hi. rewrite Hl in Hi. simpl in Hi.
    destruct (isspace x); [|reflexivity].
    exfalso. apply (f_equal length) in Hi. simpl in Hi.
    assert (Hle : ∀ u, (length (lstrip u) ≤ length u)%nat).
    { clear. induction u as [|c u IH]; simpl; [lia|]. destruct (isspace c); simpl; lia. }
    specialize (Hle t). lia. }
  rewrite (rstrip_cons x t Hx). simpl lstrip. rewrite Hx.
  rewrite (rstrip_cons x _ Hx), rstrip_idem. reflexivity.
Qed.

(** X3: the normalized figure has no whitespace at either end and does not
    start with the glyph. *)
Theorem handle_negative_values_shape :
  ∀ value,
    strip (handle_negative_values value) = handle_negative_values value
    ∧ startswith (py "▲") (handle_negative_values value) = false.
Proof.
  intros value. unfold handle_negative_values.
  destruct (_ || _ || _); [split; reflexivity|].
  cbv zeta. set (v := strip (str_of value)).
  assert (Hv : strip v = v) by apply strip_idem.
  destruct (startswith (py "▲") v) eqn:Hglyph; [|split; assumption].
  destruct v as [|x t]; [discriminate Hglyph|].
  change (py "▲") with [9650] in Hglyph. cbn [startswith] in Hglyph.
  rewrite andb_true_r in Hglyph. apply N.eqb_eq in Hglyph. subst x.
  change (py "-" ++ drop 1 (9650 :: t)) with (45 :: t).
  split; [|reflexivity].
  unfold strip in Hv |- *. simpl lstrip in Hv |- *.
  rewrite rstrip_cons in Hv by reflexivity. rewrite rstrip_cons by reflexivity.
  injection Hv as Hv. rewrite Hv. reflexivity.
Qed.

(** ** The worksheet *)

Lemma sorted_dates_nil l :
  sorted_dates l = [] ↔ Forall (λ d, item_date d = UNKNOWN_DATE) l.
Proof.
  rewrite Forall_forall. split.
  - intros Hnil x Hx.
    destruct (decide (item_date x = UNKNOWN_DATE)) as [Heq|Hne]; [exact Heq|].
    exfalso. assert (Hin : item_date x ∈ sorted_dates l).
    { apply elem_of_sorted_dates. split; [exact Hne|]. exists x. auto. }
    rewrite Hnil in Hin. inversion Hin.
  - intros Hall. destruct (sorted_dates l) as [|d ds] eqn:Hs; [reflexivity|].
    exfalso. assert (Hin : d ∈ sorted_dates l) by (rewrite Hs; apply list_elem_of_here).
    apply elem_of_sorted_dates in Hin as (Hne & x & Hx & <-).
    apply Hne, Hall, Hx.
Qed.


Lemma sorted_dates_NoDup l : NoDup (sorted_dates l).
Proof.
  unfold sorted_dates. rewrite merge_sort_Permutation.
  apply NoDup_filter, NoDup_elements.
Qed.

Lemma grid_weeks_write_grid template p dates :
  grid_weeks (write_grid template p dates) = dates.
Proof.
  unfold grid_weeks, write_grid. cbn [drop]. rewrite drop_0.
  rewrite <- list_fmap_compose. induction dates as [|d dates IH]; [reflexivity|].
  rewrite fmap_cons, IH. reflexivity.
Qed.

Lemma write_grid_length template p dates :
  length (write_grid template p dates) = (2 + length dates)%nat.
Proof. unfold write_grid. cbn [length]. rewrite length_fmap. reflexivity. Qed.

Lemma write_grid_widths template p dates :
  Forall (λ row, length row = S (length template)) (write_grid template p dates).
Proof.
  unfold write_grid. repeat apply Forall_cons_2.
  - cbn [length]. rewrite length_fmap. reflexivity.
  - cbn [length]. rewrite length_fmap. reflexivity.
  - apply Forall_fmap, Forall_forall. intros d _. simpl.
    rewrite length_fmap. reflexivity.
Qed.

(** X5: the worksheet has the two header rows over the 112 columns of the
    template after column A, and one row per week; column A lists, in
    ascending order and each once, the weeks of the data other than the
    sentinel. *)
Theorem generate_output_file_shape :
  ∀ all_data grid,
    generate_output_file all_data = Some grid →
    grid !! 0%nat = Some (py "Date" :: (code <$> get_template_columns))
    ∧ grid !! 1%nat = Some (py "Description" :: (description <$> get_template_columns))
    ∧ Forall (λ row, length row = 113%nat) grid
    ∧ length grid = (2 + length (grid_weeks grid))%nat
    ∧ Sorted str_le (grid_weeks grid)
    ∧ NoDup (grid_weeks grid)
    ∧ ∀ week, week ∈ grid_weeks grid
        ↔ week ≠ UNKNOWN_DATE ∧ ∃ d, d ∈ all_data ∧ item_date d = week.
Proof.
  intros l grid Hgen. apply generate_output_file_Some in Hgen as ->.
  rewrite grid_weeks_write_grid.
  split; [reflexivity|]. split; [reflexivity|]. split.
  { pose proof (write_grid_widths get_template_columns (build_pivot l) (sorted_dates l))
      as Hw. rewrite template_length in Hw. exact Hw. }
  split; [apply write_grid_length|].
  split; [apply sorted_dates_Sorted|].
  split; [apply sorted_dates_NoDup|].
  apply elem_of_sorted_dates.
Qed.

Lemma generate_output_file_shape_witness :
  length two_data_grid = (2 + length (grid_weeks two_data_grid))%nat
  ∧ Sorted str_le (grid_weeks two_data_grid)
  ∧ NoDup (grid_weeks two_data_grid)
  ∧ ∀ week, week ∈ grid_weeks two_data_grid
      ↔ week ≠ UNKNOWN_DATE ∧ ∃ d, d ∈ two_data ∧ item_date d = week.
Proof.
  apply (generate_output_file_shape two_data two_data_grid).
  vm_compute. reflexivity.
Defined.

Lemma grid_cell_write_grid_Some template p dates date c v :
  grid_cell (write_grid template p dates) date c = Some v →
  date ∈ dates ∧ c ∈ code <$> template.
Proof.
  unfold grid_cell, write_grid. cbn [lookup list_lookup drop mbind option_bind tail].
  rewrite drop_0.
  destruct (list_find (λ h, h = c) (code <$> template)) as [[j c']|] eqn:Hj;
    [|discriminate].
  cbn [mbind option_bind].
  match goal with
  | |- context [list_find ?P (?mk <$> dates)] =>
      destruct (list_find P (mk <$> dates)) as [[i row]|] eqn:Hi; [|discriminate]
  end.
  intros _. split.
  - apply list_find_Some in Hi as (Hi & Hhead & _).
    apply list_lookup_fmap_Some in Hi as (date' & -> & Hdate).
    cbn [head] in Hhead. injection Hhead as <-.
    eapply list_elem_of_lookup_2, Hdate.
  - apply list_find_Some in Hj as (Hj & -> & _).
    eapply list_elem_of_lookup_2, Hj.
Qed.

Lemma grid_cell_outside template p dates date c :
  c ∉ code <$> template →
  grid_cell (write_grid template p dates) date c = None.
Proof.
  intros Hc.
  destruct (grid_cell (write_grid template p dates) date c) as [v|] eqn:Hcell;
    [|reflexivity].
  apply grid_cell_write_grid_Some in Hcell as [_ Hin]. contradiction.
Qed.

(** X6: a code outside the template has no column, so its data are not in
    the worksheet; the cell of a week of the worksheet and a code of the
    template is empty when no datum has that week and code; and a cell
    that is not empty holds the value of a datum of the list with the week
    of the row and the code of the column. *)
Theorem generate_output_file_cells :
  ∀ all_data grid week c,
    generate_output_file all_data = Some grid →
    (c ∉ code <$> get_template_columns → grid_cell grid week c = None)
    ∧ (week ∈ grid_weeks grid → c ∈ code <$> get_template_columns →
       (∀ d, d ∈ all_data → ¬ same_key c week d) →
       grid_cell grid week c = Some [])
    ∧ (∀ v, grid_cell grid week c = Some v → v ≠ [] →
       ∃ d, d ∈ all_data ∧ same_key c week d ∧ item_value d = v).
Proof.
  intros l grid week c Hgen. apply generate_output_file_Some in Hgen as ->.
  rewrite grid_weeks_write_grid.
  split; [apply grid_cell_outside|]. split.
  - intros Hweek Hc Hnone. rewrite grid_cell_write_grid by assumption.
    destruct (pivot_get_cases l c week) as [(x & Hx & Hkey & _)|[_ ->]];
      [|reflexivity].
    exfalso. apply (Hnone x Hx Hkey).
  - intros v Hcell Hv.
    pose proof (grid_cell_write_grid_Some _ _ _ _ _ _ Hcell) as [Hweek Hc].
    rewrite grid_cell_write_grid in Hcell by assumption. injection Hcell as <-.
    destruct (pivot_get_cases l c week) as [(x & Hx & Hkey & Hget)|[_ Hget]].
    + exists x. split; [exact Hx|]. split; [exact Hkey|]. symmetry. exact Hget.
    + contradiction.
Qed.

Lemma generate_output_file_cells_witness :
  grid_cell two_data_grid (py "2023-49") (py "JGBF.NO.SUCH.SERIES.W") = None.
Proof.
  apply (generate_output_file_cells two_data two_data_grid (py "2023-49")
           (py "JGBF.NO.SUCH.SERIES.W")).
  - vm_compute. reflexivity.
  - by_vm.
Defined.

(** ** The consolidated workbook of a run *)

Section FoldersProperties.

Variable unicode_decimal : N → option N.
Variable str_lower : pystr → pystr.

Lemma master_data_list_ok folders d :
  d ∈ master_data_list unicode_decimal str_lower folders →
  item_code d ∈ code <$> get_template_columns
  ∧ item_date d ≠ UNKNOWN_DATE ∧ item_value d ≠ [].
Proof.
  unfold master_data_list. intros Hd.
  apply list_elem_of_bind in Hd as (file & Hd & _).
  unfold process_single_file in Hd.
  case_bool_decide as Hdate; [inversion Hd|].
  destruct (file_book file) as [sheets|]; [|inversion Hd].
  pose proof (process_sheets_ok str_lower file
                (extract_date_from_filename unicode_decimal (path_stem (file_name file)))
                sheets [] (Forall_nil_2 _)) as Hall.
  rewrite Forall_forall in Hall. destruct (Hall d Hd) as (Hcode & Hd' & Hvalue).
  split; [exact Hcode|]. split; [rewrite Hd'; exact Hdate|exact Hvalue].
Qed.

Lemma process_folders_Some folders :
  master_data_list unicode_decimal str_lower folders ≠ [] →
  process_folders unicode_decimal str_lower folders
  = Some (write_grid get_template_columns
            (build_pivot (master_data_list unicode_decimal str_lower folders))
            (sorted_dates (master_data_list unicode_decimal str_lower folders))).
Proof.
  intros Hne. unfold process_folders.
  destruct (all_excel_files folders) as [|f fs] eqn:Hfiles.
  { exfalso. apply Hne. unfold master_data_list. rewrite Hfiles. reflexivity. }
  destruct (master_data_list unicode_decimal str_lower folders) as [|m ms] eqn:Hm;
    [contradiction|].
  rewrite <- Hm in *. unfold generate_output_file.
  rewrite bool_decide_eq_false_2 by exact Hne.
  rewrite bool_decide_eq_false_2; [reflexivity|].
  intros Hnil. apply sorted_dates_nil in Hnil. rewrite Forall_forall in Hnil.
  assert (Hin : m ∈ master_data_list unicode_decimal str_lower folders)
    by (rewrite Hm; apply list_elem_of_here).
  destruct (master_data_list_ok folders m Hin) as (_ & Hdate & _).
  apply Hdate, Hnil, Hin.
Qed.

(** X7: when a file of the run yields a datum, a workbook is written and the
    datum is not lost without trace: the worksheet has the row of its week
    and the column of its code, and the cell there is not empty: it holds
    the value of a datum of the run with that week and code. *)
Theorem process_folders_keeps_data :
  ∀ folders d,
    d ∈ master_data_list unicode_decimal str_lower folders →
    ∃ grid d',
      process_folders unicode_decimal str_lower folders = Some grid
      ∧ item_date d ∈ grid_weeks grid
      ∧ d' ∈ master_data_list unicode_decimal str_lower folders
      ∧ same_key (item_code d) (item_date d) d'
      ∧ item_value d' ≠ []
      ∧ grid_cell grid (item_date d) (item_code d) = Some (item_value d').
Proof.
  intros folders d Hd.
  destruct (master_data_list_ok folders d Hd) as (Hcode & Hdate & _).
  assert (Hin : item_date d
                ∈ sorted_dates (master_data_list unicode_decimal str_lower folders)).
  { apply elem_of_sorted_dates. split; [exact Hdate|]. exists d. auto. }
  destruct (pivot_get_cases (master_data_list unicode_decimal str_lower folders)
              (item_code d) (item_date d))
    as [(x & Hx & Hkey & Hget)|[Hnone _]];
    [|exfalso; apply (Hnone d Hd); split; reflexivity].
  eexists. exists x. split.
  - apply process_folders_Some. intros H. rewrite H in Hd. inversion Hd.
  - rewrite grid_weeks_write_grid. split; [exact Hin|]. split; [exact Hx|].
    split; [exact Hkey|].
    split; [apply (master_data_list_ok folders x Hx)|].
    rewrite grid_cell_write_grid by assumption. rewrite Hget. reflexivity.
Qed.

(** X8: no workbook is written exactly when no file yields a datum: the run
    never stops at the check for valid dates of [generate_output_file]. *)
Theorem process_folders_None :
  ∀ folders,
    process_folders unicode_decimal str_lower folders = None
    ↔ master_data_list unicode_decimal str_lower folders = [].
Proof.
  intros folders. split.
  - intros Hnone.
    destruct (decide (master_data_list unicode_decimal str_lower folders = []))
      as [Hm|Hm]; [exact Hm|].
    rewrite (process_folders_Some folders Hm) in Hnone. discriminate Hnone.
  - intros Hm. unfold process_folders. rewrite Hm.
    destruct (all_excel_files folders); reflexivity.
Qed.

End FoldersProperties.

Lemma process_folders_keeps_data_witness :
  ∃ grid d',
    process_folders no_decimal ascii_only_lower [ Some [ dated_file ] ] = Some grid
    ∧ item_date dated_datum ∈ grid_weeks grid
    ∧ d' ∈ master_data_list no_decimal ascii_only_lower [ Some [ dated_file ] ]
    ∧ same_key (item_code dated_datum) (item_date dated_datum) d'
    ∧ item_value d' ≠ []
    ∧ grid_cell grid (item_date dated_datum) (item_code dated_datum)
        = Some (item_value d').
Proof.
  apply (process_folders_keeps_data no_decimal ascii_only_lower
           [ Some [ dated_file ] ] dated_datum).
  apply list_elem_of_In. vm_compute. left. reflexivity.
Defined.

(** ** The format of the week key *)

Module DatetimeFacts.
Import Datetime.
Open Scope Z_scope.

Lemma year_length y :
  days_before_year (y + 1) - days_before_year y = if is_leap y then 366 else 365.
Proof.
  unfold days_before_year, is_leap. cbv zeta.
  replace (y + 1 - 1) with y by lia.
  destruct (Z.eqb_spec (y mod 4) 0) as [H4|H4];
    destruct (Z.eqb_spec (y mod 100) 0) as [H100|H100];
    destruct (Z.eqb_spec (y mod 400) 0) as [H400|H400];
    cbn [andb orb negb];
    Z.div_mod_to_equations; lia.
Qed.

Lemma day_of_year_range y m d :
  1 <= m <= 12 → 1 <= d <= days_in_month y m →
  1 <= days_before_month y m + d <= if is_leap y then 366 else 365.
Proof.
  intros Hm Hd.
  assert (Hcases : m = 1 ∨ m = 2 ∨ m = 3 ∨ m = 4 ∨ m = 5 ∨ m = 6 ∨ m = 7 ∨ m = 8
                   ∨ m = 9 ∨ m = 10 ∨ m = 11 ∨ m = 12) by lia.
  clear Hm.
  repeat destruct Hcases as [->|Hcases]; try subst m;
    unfold days_before_month, days_in_month in *; cbn in Hd;
    destruct (is_leap y);
    match goal with
    | |- context [foldr ?f ?a ?l] =>
        let v := eval vm_compute in (foldr f a l) in change (foldr f a l) with v
    end; lia.
Qed.

Lemma isoweek1monday_spec y :
  ymd2ord y 1 1 - 3 <= isoweek1monday y <= ymd2ord y 1 1 + 3
  ∧ (isoweek1monday y + 6) mod 7 = 0.
Proof.
  unfold isoweek1monday. cbv zeta.
  set (fd := ymd2ord y 1 1).
  destruct (Z.ltb_spec 3 ((fd + 6) mod 7)); Z.div_mod_to_equations; lia.
Qed.

Lemma first_day y : ymd2ord y 1 1 = days_before_year y + 1.
Proof. unfold ymd2ord. change (days_before_month y 1) with 0. lia. Qed.

Lemma isocalendar_range y m d :
  1 <= m <= 12 → 1 <= d <= days_in_month y m →
  ∃ iso_year iso_week iso_day,
    isocalendar {| year := y; month := m; day := d |} = (iso_year, iso_week, iso_day)
    ∧ y - 1 <= iso_year <= y + 1 ∧ 1 <= iso_week <= 53 ∧ 1 <= iso_day <= 7.
Proof.
  intros Hm Hd.
  pose proof (day_of_year_range y m d Hm Hd) as Hdoy.
  pose proof (year_length y) as Hy.
  pose proof (year_length (y - 1)) as Hy1.
  replace (y - 1 + 1) with y in Hy1 by lia.
  pose proof (isoweek1monday_spec y) as [Hw Hwm].
  pose proof (isoweek1monday_spec (y - 1)) as [Hw1 Hwm1].
  pose proof (isoweek1monday_spec (y + 1)) as [Hw2 Hwm2].
  rewrite first_day in Hw, Hw1, Hw2.
  unfold isocalendar. cbn [year month day]. cbv zeta.
  set (today := ymd2ord y m d) in *.
  set (w := isoweek1monday y) in *.
  set (w1 := isoweek1monday (y - 1)) in *.
  set (w2 := isoweek1monday (y + 1)) in *.
  assert (Htoday : days_before_year y + 1 <= today <= days_before_year y + 366) by
    (unfold today, ymd2ord; destruct (is_leap y); lia).
  assert (Hlen1 : 365 <= days_before_year y - days_before_year (y - 1) <= 366) by
    (destruct (is_leap (y - 1)); lia).
  assert (Htoday' : today < days_before_year (y + 1) + 1) by
    (unfold today, ymd2ord; destruct (is_leap y); lia).
  destruct (Z.ltb_spec ((today - w) / 7) 0) as [Hneg|Hpos].
  - eexists _, _, _. split; [reflexivity|]. split; [lia|].
    clearbody today w w1 w2.
    assert (Hlt : today < w) by (Z.div_mod_to_equations; lia).
    assert (Hdiff : w - w1 <= 371) by (Z.div_mod_to_equations; lia).
    assert (Hlow : 362 <= today - w1) by lia.
    assert (Hhigh : today - w1 <= 370) by lia.
    clear - Hlow Hhigh. Z.div_mod_to_equations. lia.
  - assert (Hhigh : today - w <= 368) by (destruct (is_leap y); lia).
    destruct (Z.leb_spec 52 ((today - w) / 7)) as [H52|H52];
      destruct (Z.leb_spec w2 today) as [Hnext|Hnext]; cbn [andb];
      eexists _, _, _; (split; [reflexivity|]); (split; [lia|]);
      clearbody today w w1 w2; clear - Hpos Hhigh; Z.div_mod_to_equations; lia.
Qed.

End DatetimeFacts.

Lemma format_02d_length w :
  (1 ≤ w ≤ 53)%Z → length (Datetime.format_02d w) = 2%nat.
Proof.
  intros Hw.
  assert (Hall : Forall (λ w, length (Datetime.format_02d w) = 2%nat) (seqZ 1 53))
    by compute_done.
  rewrite Forall_forall in Hall. apply Hall, elem_of_seqZ. lia.
Qed.

Section WeekKeyFormat.

Variable unicode_decimal : N → option N.

Lemma week_key_format y m d s : week_key y m d = Ok s → is_week_key s.
Proof.
  unfold week_key, Datetime.datetime.
  destruct (_ && _) eqn:Hvalid; [|discriminate].
  repeat (apply andb_prop in Hvalid as [Hvalid ?]).
  cbn [mbind result_bind].
  destruct (DatetimeFacts.isocalendar_range y m d) as (iy & w & wd & Hiso & Hy & Hw & _);
    [lia|lia|].
  rewrite Hiso. intros [= <-].
  exists iy, w. split; [lia|]. split; [exact Hw|]. split; [reflexivity|].
  apply format_02d_length, Hw.
Qed.

Lemma try_pass_week_key y m d s :
  try_pass (Some <$> week_key y m d) = Some s → is_week_key s.
Proof.
  destruct (week_key y m d) as [r|e] eqn:Hkey; [|discriminate].
  cbn. intros [= <-]. eapply week_key_format, Hkey.
Qed.

Lemma try_match1_format filename s :
  try_match1 unicode_decimal filename = Some s → is_week_key s.
Proof.
  unfold try_match1.
  destruct (Re.search _ filename) as [[|a [|b [|c [|? ?]]]]|]; try discriminate.
  apply try_pass_week_key.
Qed.

Lemma try_match2_format filename s :
  try_match2 unicode_decimal filename = Some s → is_week_key s.
Proof.
  unfold try_match2.
  destruct (Re.search _ filename) as [[|a [|b [|c [|? ?]]]]|]; try discriminate.
  destruct (dict_get month_map _); [apply try_pass_week_key|discriminate].
Qed.

Lemma try_match3_format filename s :
  try_match3 unicode_decimal filename = Some s → is_week_key s.
Proof.
  unfold try_match3.
  destruct (Re.search _ filename) as [[|a [|b [|c [|? ?]]]]|]; try discriminate.
  destruct (dict_get month_map _); [apply try_pass_week_key|discriminate].
Qed.

(** X9: whatever the file name, the result is the sentinel or a week key:
    the ISO year, a hyphen and a week from 01 to 53 written with two
    digits. *)
Theorem extract_date_from_filename_format :
  ∀ filename,
    extract_date_from_filename unicode_decimal filename = UNKNOWN_DATE
    ∨ is_week_key (extract_date_from_filename unicode_decimal filename).
Proof.
  intros filename. unfold extract_date_from_filename.
  destruct (try_match1 unicode_decimal filename) as [r|] eqn:H1;
    [right; eapply try_match1_format, H1|].
  destruct (try_match2 unicode_decimal filename) as [r|] eqn:H2;
    [right; eapply try_match2_format, H2|].
  destruct (try_match3 unicode_decimal filename) as [r|] eqn:H3;
    [right; eapply try_match3_format, H3|].
  left. reflexivity.
Qed.

End WeekKeyFormat.

(** ** Text of numbers *)

Lemma bytes_of_uint_digits d :
  Forall (λ c, is_ascii_digit c = true) (bytes_of (NilEmpty.string_of_uint d)).
Proof. induction d; simpl; constructor; auto. Qed.

Lemma str_of_nat_digits n : Forall (λ c, is_ascii_digit c = true) (str_of_nat n).
Proof.
  unfold str_of_nat, str_of_Z.
  destruct (Z.of_nat n) as [|p|p] eqn:Hn; [repeat constructor| |lia].
  simpl. unfold NilZero.string_of_uint.
  destruct (Pos.to_uint p) eqn:Hp; try (rewrite <- Hp; apply bytes_of_uint_digits).
  repeat constructor.
Qed.

Lemma bytes_of_inj s t : bytes_of s = bytes_of t → s = t.
Proof.
  revert t. induction s as [|a s IH]; intros [|b t]; simpl; try discriminate;
    [reflexivity|].
  intros [= Hab Hst]. f_equal; [|apply IH, Hst].
  apply (f_equal ascii_of_N) in Hab. rewrite !ascii_N_embedding in Hab. exact Hab.
Qed.

Lemma pos_to_uint_nonnil p : Pos.to_uint p ≠ Decimal.Nil.
Proof.
  intros H. pose proof (DecimalPos.Unsigned.of_to p) as Hof.
  rewrite H in Hof. discriminate Hof.
Qed.

Lemma str_of_nat_inj a b : str_of_nat a = str_of_nat b → a = b.
Proof.
  unfold str_of_nat, str_of_Z. intros H. apply bytes_of_inj in H.
  apply Nat2Z.inj, DecimalZ.to_int_inj.
  assert (Hnn : ∀ z, Z.to_int z ≠ Decimal.Pos Decimal.Nil ∧ Z.to_int z ≠ Decimal.Neg Decimal.Nil).
  { intros [|p|p]; simpl; split; try discriminate;
      intros [= Hp]; apply (pos_to_uint_nonnil p Hp). }
  apply (f_equal NilZero.int_of_string) in H.
  rewrite !NilZero.isi in H by apply Hnn.
  injection H as H. exact H.
Qed.

(** ** Names of the sheets *)

Lemma startswith_app p s : startswith p (p ++ s) = true.
Proof. induction p as [|a p IH]; [reflexivity|]. simpl. rewrite N.eqb_refl. exact IH. Qed.

Lemma str_in_skip_prefix needle x pre rest :
  head needle = Some x →
  Forall (λ c, c ≠ x) pre →
  str_in needle (pre ++ rest) = str_in needle rest.
Proof.
  destruct needle as [|y needle]; [discriminate|]. intros [= ->].
  induction 1 as [|c pre Hc _ IH]; [reflexivity|].
  cbn [app]. rewrite <- IH. cbn [str_in startswith].
  destruct (N.eqb_spec x c) as [->|_]; [contradiction|]. reflexivity.
Qed.

Lemma digit_not c x : is_ascii_digit c = true → is_ascii_digit x = false → c ≠ x.
Proof. intros Hc Hx ->. congruence. Qed.

Lemma sheet_name_prefix_free i x :
  x ≠ 80 → is_ascii_digit x = false →
  Forall (λ c, c ≠ x) (py "P" ++ str_of_nat (i / 4 + 1)).
Proof.
  intros HP Hx. change (py "P") with [80]. apply Forall_cons. split; [congruence|].
  eapply Forall_impl; [apply str_of_nat_digits|].
  intros c Hc. eapply digit_not; eauto.
Qed.

Lemma table_type_of_sheet_name i name :
  table_type_of (py "P" ++ str_of_nat (i / 4 + 1) ++ py "_" ++ name)
  = table_type_of (py "_" ++ name).
Proof.
  unfold table_type_of. rewrite !(app_assoc (py "P")).
  rewrite (str_in_skip_prefix (py "Table1_Main_Summary") 84)
    by (first [vm_compute; reflexivity
              | apply sheet_name_prefix_free; [discriminate|reflexivity]]).
  rewrite (str_in_skip_prefix (py "Table2_Brokerage_Bre") 84)
    by (first [vm_compute; reflexivity
              | apply sheet_name_prefix_free; [discriminate|reflexivity]]).
  reflexivity.
Qed.

(** X10: the parser of multiple.py recognizes the sheets the converter of
    new2.py names: the first table of each group of four is read as the
    main summary, the second as the brokerage breakdown, and the third and
    fourth are passed over. *)
Theorem sheet_name_table_type :
  ∀ i,
    table_type_of (sheet_name_of i)
    = match (i mod 4)%nat with
      | 0%nat => Some (py "main_summary")
      | 1%nat => Some (py "brokerage_breakdown")
      | _ => None
      end.
Proof.
  intros i. unfold sheet_name_of. cbv zeta.
  rewrite table_type_of_sheet_name.
  pose proof (Nat.mod_upper_bound i 4 ltac:(discriminate)) as Hlt.
  destruct (i mod 4)%nat as [|[|[|[|k]]]]; try lia; vm_compute; reflexivity.
Qed.

Lemma split_at_underscore (d1 d2 r1 r2 : pystr) :
  Forall (λ c, c ≠ 95) d1 → Forall (λ c, c ≠ 95) d2 →
  d1 ++ 95 :: r1 = d2 ++ 95 :: r2 → d1 = d2 ∧ r1 = r2.
Proof.
  intros H1. revert d2. induction H1 as [|c d1 Hc _ IH]; intros d2 H2 Heq.
  - destruct H2 as [|c' d2 Hc' _]; [injection Heq as ->; auto|].
    injection Heq as Heq _. congruence.
  - destruct H2 as [|c' d2 Hc' H2]; [injection Heq as Heq _; congruence|].
    injection Heq as -> Heq. destruct (IH d2 H2 Heq) as [-> ->]. auto.
Qed.

(** X11: two tables of a document never get the same sheet name. *)
Theorem sheet_names_distinct :
  ∀ i j, sheet_name_of i = sheet_name_of j → i = j.
Proof.
  intros i j. unfold sheet_name_of. cbv zeta.
  pose proof (Nat.mod_upper_bound i 4 ltac:(discriminate)) as Hi.
  pose proof (Nat.mod_upper_bound j 4 ltac:(discriminate)) as Hj.
  pose proof (Nat.div_mod_eq i 4) as Hdi. pose proof (Nat.div_mod_eq j 4) as Hdj.
  remember (i mod 4)%nat as a eqn:Ha. remember (j mod 4)%nat as b eqn:Hb.
  remember (i / 4)%nat as p eqn:Hp. remember (j / 4)%nat as q eqn:Hq.
  clear Ha Hb Hp Hq.
  change (py "P") with [80]. change (py "_") with [95].
  intros Heq. apply (app_inv_head [80]) in Heq.
  apply split_at_underscore in Heq as [Hpage Hname];
    try (eapply Forall_impl; [apply str_of_nat_digits|];
         intros c Hc; eapply digit_not; eauto).
  apply str_of_nat_inj in Hpage.
  assert (Hmod : a = b).
  { destruct a as [|[|[|[|k]]]]; try lia;
      destruct b as [|[|[|[|k']]]]; try lia;
      vm_compute in Hname; discriminate Hname. }
  lia.
Qed.

Lemma sheet_names_distinct_witness :
  sheet_name_of 5 = sheet_name_of (1 + 4) ∧ (5 = 1 + 4)%nat.
Proof.
  split; [reflexivity|]. apply (sheet_names_distinct 5 (1 + 4)). reflexivity.
Defined.

(** ** The titles found on a page *)

Lemma pad_titles_elem fuel found x :
  x ∈ pad_titles fuel found ↔
  x ∈ found ∨ (x ∈ pad_titles fuel found ∧ x ∉ found).
Proof.
  split; [|intros [H|[H _]]; [|exact H]].
  - intros H. destruct (decide (x ∈ found)); [left|right]; auto.
  - revert found H. induction fuel as [|fuel IH]; intros found H; cbn [pad_titles];
      [exact H|].
    destruct (_ <? _)%nat; [|exact H].
    apply IH, elem_of_app. left. exact H.
Qed.

Lemma pad_titles_labels fuel found x :
  x ∈ pad_titles fuel found → x ∈ found ∨ startswith (py "Table Title ") x = true.
Proof.
  revert found. induction fuel as [|fuel IH]; intros found; cbn [pad_titles]; [auto|].
  destruct (_ <? _)%nat; [|auto].
  intros H. apply IH in H as [H|H]; [|auto].
  apply elem_of_app in H as [H|H]; [auto|].
  apply list_elem_of_singleton in H as ->. right. apply startswith_app.
Qed.

Lemma title_keyword_unique k k' t :
  (k, t) ∈ zip table_keywords table_section_titles →
  (k', t) ∈ zip table_keywords table_section_titles →
  k = k'.
Proof.
  intros H H'.
  assert (Hnd : NoDup (zip table_keywords table_section_titles).*2) by compute_done.
  pose proof (NoDup_fmap_inj_on snd _ Hnd (k, t) (k', t) H H' eq_refl) as [= ->].
  reflexivity.
Qed.

(** X12: a section title is in the list of titles of a page exactly when its
    keyword occurs in the text of the page; the list always has four
    entries, and when all four keywords occur it is the list of the section
    titles itself. *)
Theorem extract_table_titles_found :
  ∀ text keyword full_title,
    (keyword, full_title) ∈ zip table_keywords table_section_titles →
    (full_title ∈ extract_table_titles_from_text text ↔ str_in keyword text = true)
    ∧ length (extract_table_titles_from_text text) = 4%nat
    ∧ (Forall (λ k, str_in k text = true) table_keywords →
       extract_table_titles_from_text text = table_section_titles).
Proof.
  intros text k t Hkt. split; [|split; [apply extract_table_titles_length|]].
  - unfold extract_table_titles_from_text. split.
    + intros Hin. apply pad_titles_labels in Hin as [Hin|Hlabel].
      * apply list_elem_of_bind in Hin as ([k' t'] & Hin & Hzip).
        destruct (str_in k' text) eqn:Hk'; [|inversion Hin].
        apply list_elem_of_singleton in Hin as ->.
        rewrite (title_keyword_unique k k' t' Hkt Hzip). exact Hk'.
      * exfalso.
        assert (Hall : Forall (λ kt : pystr * pystr,
                                 startswith (py "Table Title ") kt.2 = false)
                         (zip table_keywords table_section_titles)) by compute_done.
        rewrite Forall_forall in Hall. specialize (Hall _ Hkt). cbn [snd] in Hall.
        rewrite Hall in Hlabel. discriminate Hlabel.
    + intros Hk. apply pad_titles_elem. left.
      apply list_elem_of_bind. exists (k, t). split; [|exact Hkt].
      rewrite Hk. apply list_elem_of_here.
  - intros Hall. unfold extract_table_titles_from_text.
    assert (H4 : ∀ k1 k2 k3 k4, table_keywords = [k1; k2; k3; k4] →
                 str_in k1 text = true ∧ str_in k2 text = true
                 ∧ str_in k3 text = true ∧ str_in k4 text = true).
    { intros k1 k2 k3 k4 Heq. rewrite Heq in Hall.
      repeat (apply Forall_cons in Hall as [? Hall]). auto. }
    destruct (H4 _ _ _ _ eq_refl) as (H1 & H2 & H3 & H4').
    unfold table_keywords, table_section_titles.
    cbn [zip zip_with mbind list_bind mapM foldr app] .
    rewrite H1, H2, H3, H4'. reflexivity.
Qed.

Lemma extract_table_titles_found_witness :
  (py "委託内訳 Breakdown of Brokerage" ∈ extract_table_titles_from_text full_page_text
   ↔ str_in (py "委託内訳") full_page_text = true)
  ∧ length (extract_table_titles_from_text full_page_text) = 4%nat
  ∧ (Forall (λ k, str_in k full_page_text = true) table_keywords →
     extract_table_titles_from_text full_page_text = table_section_titles).
Proof.
  apply (extract_table_titles_found full_page_text (py "委託内訳")
           (py "委託内訳 Breakdown of Brokerage")).
  apply list_elem_of_In. vm_compute. right. left. reflexivity.
Defined.

(** ** Subtitles and titles of the sheets *)

Lemma assign_tables_subtitles r n st :
  ∀ g, table_to_subtitle_map (foldl (assign_table r) st (seq 0 n)) !! g =
    if bool_decide (current_table_index st ≤ g < current_table_index st + n)%nat
    then Some (pr_subtitle r)
    else table_to_subtitle_map st !! g.
Proof.
  induction n as [|n IH]; intros g.
  - simpl. rewrite bool_decide_eq_false_2 by lia. reflexivity.
  - rewrite seq_S, foldl_app. simpl.
    rewrite (proj1 (assign_tables_spec r n st)).
    destruct (decide (g = current_table_index st + n)%nat) as [->|Hne].
    + rewrite lookup_insert_eq. rewrite bool_decide_eq_true_2 by lia. reflexivity.
    + rewrite lookup_insert_ne by lia. rewrite IH.
      repeat case_bool_decide; try reflexivity; lia.
Qed.

Lemma assign_page_fresh st r : maps_fresh st → maps_fresh (assign_page st r).
Proof.
  intros Hst g Hg. unfold assign_page in *.
  destruct (assign_tables_spec r (table_count r) st) as [Hidx Hmap].
  rewrite Hidx in Hg.
  rewrite assign_tables_subtitles, Hmap.
  rewrite !bool_decide_eq_false_2 by lia. apply Hst. lia.
Qed.

Lemma assign_pages_fresh pages st :
  maps_fresh st → maps_fresh (foldl assign_page st pages).
Proof.
  revert st. induction pages as [|r pages IH]; intros st Hst; cbn [foldl]; [exact Hst|].
  apply IH, assign_page_fresh, Hst.
Qed.

Lemma assign_pages_preserve_subtitles pages st g :
  (g < current_table_index st)%nat →
  table_to_subtitle_map (foldl assign_page st pages) !! g
    = table_to_subtitle_map st !! g.
Proof.
  revert st. induction pages as [|r pages IH]; intros st Hlt; cbn [foldl]; [reflexivity|].
  destruct (assign_tables_spec r (table_count r) st) as [Hidx _].
  rewrite IH by (unfold assign_page; rewrite Hidx; lia).
  unfold assign_page. rewrite assign_tables_subtitles.
  rewrite bool_decide_eq_false_2 by lia. reflexivity.
Qed.

Lemma assign_titles_index page_results :
  current_table_index (assign_titles page_results)
  = sum_list (table_count <$> page_results).
Proof. unfold assign_titles. rewrite assign_pages_index. reflexivity. Qed.

Lemma subtitle_of_page_table before result after i :
  (i < table_count result)%nat →
  table_to_subtitle_map (assign_titles (before ++ result :: after))
    !! (sum_list (table_count <$> before) + i)%nat = Some (pr_subtitle result).
Proof.
  intros Hi. unfold assign_titles. rewrite foldl_app. cbn [foldl].
  set (st := foldl assign_page _ before).
  assert (Hst : current_table_index st = sum_list (table_count <$> before)).
  { unfold st. rewrite assign_pages_index. reflexivity. }
  destruct (assign_tables_spec result (table_count result) st) as [Hidx _].
  rewrite assign_pages_preserve_subtitles by (unfold assign_page; rewrite Hidx; lia).
  unfold assign_page. rewrite assign_tables_subtitles, Hst.
  rewrite bool_decide_eq_true_2 by lia. reflexivity.
Qed.

Lemma title_of_page_table before result after i :
  (i < table_count result)%nat →
  table_to_table_title_map (assign_titles (before ++ result :: after))
    !! (sum_list (table_count <$> before) + i)%nat
  = Some (title_of_table (table_titles result) i).
Proof.
  intros Hi. unfold assign_titles. rewrite foldl_app. cbn [foldl].
  set (st := foldl assign_page _ before).
  assert (Hst : current_table_index st = sum_list (table_count <$> before)).
  { unfold st. rewrite assign_pages_index. reflexivity. }
  destruct (assign_tables_spec result (table_count result) st) as [Hidx Hmap].
  rewrite assign_pages_preserve by (unfold assign_page; rewrite Hidx; lia).
  unfold assign_page. rewrite Hmap, Hst.
  rewrite bool_decide_eq_true_2 by lia. do 2 f_equal. lia.
Qed.

(** X13: the sheet of the [i]-th table of a page carries in A2 the subtitle
    of that page and in A3 the title of its slot, under the name of its
    place in the document; a table beyond the tables the pages counted gets
    the two "Not Found" texts. *)
Theorem sheet_heads_of_pages :
  ∀ before result after i total_tables,
    (i < table_count result)%nat →
    (sum_list (table_count <$> before) + i < total_tables)%nat →
    sheet_heads (before ++ result :: after) total_tables
      !! (sum_list (table_count <$> before) + i)%nat
    = Some {| head_name := sheet_name_of (sum_list (table_count <$> before) + i);
              head_a1 := py "Title: " ++ py "Trading by Type of Investors";
              head_a2 := py "Subtitle: " ++ pr_subtitle result;
              head_a3 := py "Table Title: " ++ title_of_table (table_titles result) i |}
    ∧ ∀ g, (sum_list (table_count <$> (before ++ result :: after)) ≤ g < total_tables)%nat →
        sheet_heads (before ++ result :: after) total_tables !! g
        = Some {| head_name := sheet_name_of g;
                  head_a1 := py "Title: " ++ py "Trading by Type of Investors";
                  head_a2 := py "Subtitle: " ++ py "Subtitle Not Found";
                  head_a3 := py "Table Title: " ++ py "Table Title Not Found" |}.
Proof.
  intros before result after i total Hi Htotal.
  assert (Hlookup : ∀ st g, (g < total)%nat →
            (sheet_head_of st <$> seq 0 total) !! g = Some (sheet_head_of st g)).
  { intros st g Hg. rewrite list_lookup_fmap, lookup_seq_lt by exact Hg. reflexivity. }
  unfold sheet_heads. split.
  - rewrite Hlookup by exact Htotal.
    unfold sheet_head_of, subtitle_of_table, table_title_of_table.
    rewrite subtitle_of_page_table, title_of_page_table by exact Hi.
    cbn [from_option id]. reflexivity.
  - intros g [Hge Hlt].
    rewrite Hlookup by exact Hlt.
    unfold sheet_head_of, subtitle_of_table, table_title_of_table.
    assert (Hfresh : maps_fresh (assign_titles (before ++ result :: after))).
    { unfold assign_titles. apply assign_pages_fresh. intros g' _.
      split; apply lookup_empty. }
    destruct (Hfresh g) as [-> ->]; [rewrite assign_titles_index; exact Hge|].
    cbn [from_option id]. reflexivity.
Qed.

Lemma sheet_heads_of_pages_witness :
  sheet_heads ([] ++ five_table_page :: []) 6
    !! (sum_list (table_count <$> []) + 4)%nat
  = Some {| head_name := sheet_name_of (sum_list (table_count <$> []) + 4);
            head_a1 := py "Title: " ++ py "Trading by Type of Investors";
            head_a2 := py "Subtitle: " ++ pr_subtitle five_table_page;
            head_a3 := py "Table Title: "
                       ++ title_of_table (table_titles five_table_page) 4 |}.
Proof.
  assert (H1 : (4 < table_count five_table_page)%nat) by (vm_compute; lia).
  assert (H2 : (sum_list (table_count <$> []) + 4 < 6)%nat) by (vm_compute; lia).
  pose proof (sheet_heads_of_pages [] five_table_page [] 4 6 H1 H2) as [H _].
  exact H.
Defined.

(** ** Names of the fragments of the pages *)

(** X14: two jobs write to the same fragment only when they are for the same
    page of a document of the same name. *)
Theorem page_docx_names_distinct :
  ∀ pdf_name page_number pdf_name' page_number',
    page_docx_name pdf_name page_number = page_docx_name pdf_name' page_number' →
    pdf_name = pdf_name' ∧ page_number = page_number'.
Proof.
  intros n p n' p'. unfold page_docx_name.
  rewrite !(app_assoc n), !(app_assoc n'), !(app_assoc (_ ++ _) _ (py ".docx")).
  intros H. apply app_inv_tail in H.
  apply (f_equal (@rev N)) in H. rewrite !rev_app_distr in H.
  change (py "_page_") with (py "_page" ++ [95]) in H.
  rewrite !rev_app_distr in H. cbn [rev app] in H.
  assert (Hd : ∀ k, Forall (λ c, c ≠ 95) (rev (str_of_nat k))).
  { intros k. apply Forall_forall. intros c Hc.
    apply list_elem_of_In, in_rev, list_elem_of_In in Hc.
    pose proof (str_of_nat_digits k) as Hall. rewrite Forall_forall in Hall.
    eapply digit_not; [apply Hall, Hc|reflexivity]. }
  apply split_at_underscore in H as [Hp Hn]; [|apply Hd|apply Hd].
  split.
  - apply app_inv_head in Hn. apply (f_equal (@rev N)) in Hn.
    rewrite !rev_involutive in Hn. exact Hn.
  - apply (f_equal (@rev N)) in Hp. rewrite !rev_involutive in Hp.
    apply str_of_nat_inj, Hp.
Qed.

Lemma page_docx_names_distinct_witness :
  page_docx_name (py "Jul_2025_Week2_7-7_-_7-11") 3
    = page_docx_name (py "Jul_2025_Week2_7-7_-_7-11") (1 + 2)
  ∧ (3 = 1 + 2)%nat.
Proof.
  split; [reflexivity|].
  apply (page_docx_names_distinct (py "Jul_2025_Week2_7-7_-_7-11") 3
           (py "Jul_2025_Week2_7-7_-_7-11") (1 + 2)).
  reflexivity.
Defined.

(** ** The scan of the pages *)

Example target_subtitles_sorted :
  target_subtitles
  = [ py "mini-10-year JGB Futures (Cash-Settled)";
      py "mini-20-year JGB Futures";
      py "JGB(10-year) Futures";
      py "3-Month TONA Futures";
      py "長期国債先物（現金決済型ミニ）" ].
Proof. vm_compute. reflexivity. Qed.

Lemma first_keyword_any keywords line :
  is_Some (first_keyword keywords line) ↔ any_in keywords line = true.
Proof.
  unfold any_in. induction keywords as [|k keywords IH]; simpl.
  - split; [intros [? [=]]|discriminate].
  - destruct (str_in k line); simpl; [split; eauto|exact IH].
Qed.

Lemma any_in_perm keywords keywords' line :
  keywords ≡ₚ keywords' → any_in keywords line = any_in keywords' line.
Proof.
  intros Hperm. unfold any_in.
  destruct (existsb _ keywords) eqn:H1; destruct (existsb _ keywords') eqn:H2;
    try reflexivity.
  - apply existsb_exists in H1 as (k & Hk & Hin).
    assert (existsb (λ keyword, str_in keyword line) keywords' = true) as H.
    { apply existsb_exists. exists k. split; [|exact Hin].
      apply list_elem_of_In. rewrite <- Hperm. apply list_elem_of_In, Hk. }
    congruence.
  - apply existsb_exists in H2 as (k & Hk & Hin).
    assert (existsb (λ keyword, str_in keyword line) keywords = true) as H.
    { apply existsb_exists. exists k. split; [|exact Hin].
      apply list_elem_of_In. rewrite Hperm. apply list_elem_of_In, Hk. }
    congruence.
Qed.

Lemma scan_lines_any keywords lines :
  scan_lines keywords lines
  = match list_find (λ line, strip line ≠ [] ∧ any_in primary_exclusion_keywords line = false
                             ∧ any_in keywords line = true) lines with
    | Some (_, line) => Some (strip line)
    | None => None
    end.
Proof.
  induction lines as [|line lines IH]; [reflexivity|].
  cbn [scan_lines list_find].
  case_bool_decide as Hblank.
  { rewrite decide_False by (intros [H _]; contradiction).
    rewrite IH. destruct (list_find _ lines) as [[? ?]|]; reflexivity. }
  destruct (any_in primary_exclusion_keywords line) eqn:Hex.
  { rewrite decide_False by (intros (_ & H & _); discriminate).
    rewrite IH. destruct (list_find _ lines) as [[? ?]|]; reflexivity. }
  destruct (first_keyword keywords line) as [k|] eqn:Hk.
  - rewrite decide_True; [reflexivity|].
    split; [exact Hblank|]. split; [reflexivity|].
    apply first_keyword_any. rewrite Hk. eauto.
  - rewrite decide_False.
    + rewrite IH. destruct (list_find _ lines) as [[? ?]|]; reflexivity.
    + intros (_ & _ & Hany). apply first_keyword_any in Hany as [? Hsome].
      congruence.
Qed.

Lemma insert_longest_first_perm x l : insert_longest_first x l ≡ₚ x :: l.
Proof.
  induction l as [|y l IH]; [reflexivity|].
  simpl. destruct (_ <? _)%nat; [reflexivity|].
  rewrite IH. apply perm_swap.
Qed.

Lemma sort_longest_first_perm l : sort_longest_first l ≡ₚ l.
Proof.
  unfold sort_longest_first.
  assert (H : ∀ acc, foldl (λ acc x, insert_longest_first x acc) acc l ≡ₚ acc ++ l).
  { induction l as [|x l IH]; intros acc; cbn [foldl].
    - rewrite app_nil_r. reflexivity.
    - rewrite IH, insert_longest_first_perm.
      rewrite (Permutation_middle acc l x). reflexivity. }
  apply (H []).
Qed.

Lemma scan_lines_perm keywords keywords' lines :
  keywords ≡ₚ keywords' → scan_lines keywords lines = scan_lines keywords' lines.
Proof.
  intros Hperm. induction lines as [|line lines IH]; [reflexivity|].
  cbn [scan_lines]. rewrite IH.
  pose proof (first_keyword_any keywords line) as H1.
  pose proof (first_keyword_any keywords' line) as H2.
  rewrite (any_in_perm _ _ line Hperm) in H1.
  destruct (first_keyword keywords line) as [k|];
    destruct (first_keyword keywords' line) as [k'|]; try reflexivity.
  - destruct H2 as [_ H2]. destruct H2 as [? [=]]. apply H1. eauto.
  - destruct H1 as [_ H1]. destruct H1 as [? [=]]. apply H2. eauto.
Qed.

Lemma scan_pages_perm keywords keywords' i pages :
  keywords ≡ₚ keywords' → scan_pages keywords i pages = scan_pages keywords' i pages.
Proof.
  intros Hperm. revert i. induction pages as [|[lines|] pages IH]; intros i;
    cbn [scan_pages]; try reflexivity.
  rewrite (scan_lines_perm _ _ lines Hperm), !IH. reflexivity.
Qed.

(** X15: the order of the keywords has no part in the result of the scan: the
    pages chosen and the subtitles captured are those of the list as
    written, unsorted; what is captured is the whole line, whichever
    keyword it holds. *)
Theorem scan_ignores_keyword_order :
  ∀ keywords i pages doc,
    scan_pages (sort_longest_first keywords) i pages = scan_pages keywords i pages
    ∧ get_relevant_pages_and_subtitles doc
      = match doc with
        | None => []
        | Some pages' => scan_pages target_subtitles_listed 0 pages'
        end.
Proof.
  intros keywords i pages doc. split.
  - apply scan_pages_perm, sort_longest_first_perm.
  - destruct doc as [pages'|]; [|reflexivity].
    apply scan_pages_perm, sort_longest_first_perm.
Qed.

Lemma scan_lines_Some keywords lines s :
  scan_lines keywords lines = Some s →
  ∃ line, line ∈ lines ∧ s = strip line ∧ line_selected keywords line.
Proof.
  rewrite scan_lines_any.
  destruct (list_find _ lines) as [[n line]|] eqn:Hfind; [|discriminate].
  intros [= <-]. apply list_find_Some in Hfind as (Hn & Hsel & _).
  exists line. split; [eapply list_elem_of_lookup_2, Hn|]. split; [reflexivity|exact Hsel].
Qed.

Lemma scan_pages_elem keywords i pages j s :
  (j, s) ∈ scan_pages keywords i pages →
  ∃ lines, (i ≤ j)%nat ∧ pages !! (j - i)%nat = Some (Some lines)
    ∧ scan_lines keywords lines = Some s.
Proof.
  revert i. induction pages as [|[lines|] pages IH]; intros i; cbn [scan_pages];
    try (intros H; inversion H; fail).
  destruct (scan_lines keywords lines) as [t|] eqn:Hscan.
  - intros H. apply elem_of_cons in H as [[= -> ->]|H].
    + exists lines. split; [lia|]. rewrite Nat.sub_diag. auto.
    + apply IH in H as (lines' & Hle & Hlook & Hs).
      exists lines'. split; [lia|]. split; [|exact Hs].
      replace (j - i)%nat with (S (j - S i)) by lia. exact Hlook.
  - intros H. apply IH in H as (lines' & Hle & Hlook & Hs).
    exists lines'. split; [lia|]. split; [|exact Hs].
    replace (j - i)%nat with (S (j - S i)) by lia. exact Hlook.
Qed.

Lemma scan_pages_keys keywords i pages :
  Forall (λ j, i ≤ j)%nat (scan_pages keywords i pages).*1
  ∧ StronglySorted lt (scan_pages keywords i pages).*1.
Proof.
  revert i. induction pages as [|[lines|] pages IH]; intros i; cbn [scan_pages];
    try (split; constructor).
  destruct (IH (S i)) as [Hge Hsorted].
  assert (Hge' : Forall (λ j, i ≤ j)%nat (scan_pages keywords (S i) pages).*1).
  { eapply Forall_impl; [exact Hge|]. intros j Hj. simpl in Hj. lia. }
  destruct (scan_lines keywords lines) as [t|]; [|auto].
  rewrite fmap_cons. cbn [fst]. split.
  - constructor; [lia|exact Hge'].
  - constructor; [exact Hsorted|].
    eapply Forall_impl; [exact Hge|]. intros j Hj. simpl in Hj. lia.
Qed.

(** X16: a page is in the result only with the text, stripped and not empty,
    of one of its lines that holds a target subtitle and no exclusion
    keyword: a line of an Options page is never captured; and the page
    numbers of the result ascend, none twice. *)
Theorem relevant_pages_selected :
  ∀ pages page_number full_subtitle,
    (page_number, full_subtitle) ∈ get_relevant_pages_and_subtitles (Some pages) →
    (∃ lines line,
       pages !! page_number = Some (Some lines) ∧ line ∈ lines
       ∧ full_subtitle = strip line ∧ full_subtitle ≠ []
       ∧ any_in primary_exclusion_keywords line = false
       ∧ any_in target_subtitles_listed line = true)
    ∧ StronglySorted lt (get_relevant_pages_and_subtitles (Some pages)).*1.
Proof.
  intros pages j s Hin. cbn [get_relevant_pages_and_subtitles] in *.
  split; [|apply scan_pages_keys].
  apply scan_pages_elem in Hin as (lines & _ & Hlook & Hscan).
  rewrite Nat.sub_0_r in Hlook.
  apply scan_lines_Some in Hscan as (line & Hline & -> & Hblank & Hex & Hany).
  exists lines, line. repeat (split; [assumption || reflexivity|]).
  rewrite <- Hany. apply any_in_perm. symmetry. apply sort_longest_first_perm.
Qed.

Lemma relevant_pages_selected_witness :
  ∃ lines line,
    scanned_pages !! 1%nat = Some (Some lines) ∧ line ∈ lines
    ∧ py "JGB(10-year) Futures" = strip line ∧ py "JGB(10-year) Futures" ≠ []
    ∧ any_in primary_exclusion_keywords line = false
    ∧ any_in target_subtitles_listed line = true.
Proof.
  apply (relevant_pages_selected scanned_pages 1 (py "JGB(10-year) Futures")).
  apply list_elem_of_In. vm_compute. left. reflexivity.
Defined.

(** ** The results of the workers *)

Lemma dict_get_append {V} (d : list (pystr * list V)) k v k' :
  dict_get (dict_append d k v) k'
  = if bool_decide (k = k') then Some (default [] (dict_get d k) ++ [v])
    else dict_get d k'.
Proof.
  induction d as [|[k0 l] d IH]; simpl.
  - repeat case_bool_decide; reflexivity.
  - destruct (decide (k0 = k)) as [->|Hne].
    + rewrite (bool_decide_eq_true_2 (k = k)) by reflexivity. simpl.
      repeat case_bool_decide; try reflexivity; congruence.
    + rewrite (bool_decide_eq_false_2 (k0 = k)) by exact Hne. simpl.
      rewrite IH. repeat case_bool_decide; try reflexivity; congruence.
Qed.

Lemma dict_get_group_results page_results pdf_name :
  dict_get (group_results page_results) pdf_name
  = match converted_of pdf_name page_results with
    | [] => None
    | l => Some l
    end.
Proof.
  induction page_results as [|r rs IH] using rev_ind; [reflexivity|].
  unfold group_results, converted_of in *. rewrite foldl_snoc, filter_app.
  rewrite filter_cons, filter_nil.
  destruct (wr_success r) eqn:Hs.
  - rewrite dict_get_append.
    destruct (decide (wr_pdf_name r = pdf_name)) as [Hn|Hn].
    + rewrite bool_decide_eq_true_2 by exact Hn.
      rewrite decide_True by auto. subst pdf_name. rewrite IH.
      destruct (filter _ rs); reflexivity.
    + rewrite bool_decide_eq_false_2 by exact Hn.
      rewrite decide_False by (intros [_ ?]; contradiction).
      rewrite app_nil_r. exact IH.
  - rewrite decide_False by (intros [? _]; congruence).
    rewrite app_nil_r. exact IH.
Qed.

Lemma insert_by_page_perm x l : insert_by_page x l ≡ₚ x :: l.
Proof.
  induction l as [|y l IH]; [reflexivity|].
  simpl. destruct (_ <? _)%nat; [reflexivity|]. rewrite IH. apply perm_swap.
Qed.

Lemma sort_by_page_perm l : sort_by_page l ≡ₚ l.
Proof.
  unfold sort_by_page.
  assert (H : ∀ acc, foldl (λ acc x, insert_by_page x acc) acc l ≡ₚ acc ++ l).
  { induction l as [|x l IH]; intros acc; cbn [foldl].
    - rewrite app_nil_r. reflexivity.
    - rewrite IH, insert_by_page_perm. rewrite (Permutation_middle acc l x). reflexivity. }
  apply (H []).
Qed.

Lemma insert_by_page_ascend x l : pages_ascend l → pages_ascend (insert_by_page x l).
Proof.
  unfold pages_ascend. induction l as [|y l IH]; intros Hl.
  - repeat constructor.
  - cbn [insert_by_page]. apply StronglySorted_inv in Hl as [Hl Hy].
    destruct (Nat.ltb_spec (wr_page_number x) (wr_page_number y)) as [Hlt|Hge].
    + rewrite !fmap_cons. constructor; [constructor; assumption|].
      constructor; [lia|]. eapply Forall_impl; [exact Hy|]. intros; simpl in *; lia.
    + rewrite fmap_cons. constructor; [apply IH, Hl|].
      rewrite insert_by_page_perm, fmap_cons. constructor; [exact Hge|exact Hy].
Qed.

Lemma sort_by_page_ascend l : pages_ascend (sort_by_page l).
Proof.
  unfold sort_by_page.
  assert (H : ∀ acc, pages_ascend acc →
              pages_ascend (foldl (λ acc x, insert_by_page x acc) acc l)).
  { induction l as [|x l IH]; intros acc Hacc; cbn [foldl]; [exact Hacc|].
    apply IH, insert_by_page_ascend, Hacc. }
  apply H. constructor.
Qed.

Lemma ascend_unique l1 l2 :
  l1 ≡ₚ l2 → pages_ascend l1 → pages_ascend l2 →
  NoDup (wr_page_number <$> l1) → l1 = l2.
Proof.
  unfold pages_ascend. revert l2. induction l1 as [|a l1 IH]; intros l2 Hperm H1 H2 Hnd.
  - apply Permutation_nil_l in Hperm. auto.
  - destruct l2 as [|b l2]; [apply Permutation_nil_r in Hperm; discriminate|].
    rewrite fmap_cons in H1, H2.
    apply StronglySorted_inv in H1 as [H1 Ha]. apply StronglySorted_inv in H2 as [H2 Hb].
    assert (Hab : a = b).
    { assert (Hbin : b ∈ a :: l1) by (rewrite Hperm; apply list_elem_of_here).
      assert (Hain : a ∈ b :: l2) by (rewrite <- Hperm; apply list_elem_of_here).
      apply (NoDup_fmap_inj_on wr_page_number (a :: l1) Hnd);
        [apply list_elem_of_here|exact Hbin|].
      apply Nat.le_antisymm.
      - apply elem_of_cons in Hbin as [->|Hbin]; [lia|].
        rewrite Forall_forall in Ha. apply Ha, list_elem_of_fmap_2, Hbin.
      - apply elem_of_cons in Hain as [->|Hain]; [lia|].
        rewrite Forall_forall in Hb. apply Hb, list_elem_of_fmap_2, Hain. }
    subst b. f_equal. apply IH; try assumption.
    + eapply Permutation_cons_inv, Hperm.
    + rewrite fmap_cons in Hnd. apply NoDup_cons in Hnd as [_ Hnd]. exact Hnd.
Qed.

Lemma dict_get_fmap_values {V W} (f : V → W) (d : list (pystr * V)) k :
  dict_get ((λ '(k', v), (k', f v)) <$> d) k = f <$> dict_get d k.
Proof.
  induction d as [|[k0 v] d IH]; [reflexivity|].
  rewrite fmap_cons. cbn [dict_get]. case_bool_decide; [reflexivity|exact IH].
Qed.

Lemma ascend_strict (l : list nat) :
  StronglySorted le l → NoDup l → StronglySorted lt l.
Proof.
  induction 1 as [|x l Hl IH Hx]; intros Hnd; [constructor|].
  apply NoDup_cons in Hnd as [Hnotin Hnd]. constructor; [apply IH, Hnd|].
  rewrite Forall_forall in Hx |- *. intros y Hy.
  specialize (Hx y Hy). assert (x ≠ y) by (intros ->; contradiction). lia.
Qed.

(** X17: the order in which the workers finish has no part in what is
    combined: when no two converted pages of a document have the same page
    number, the document gets the same list of results for every order of
    arrival, namely its converted pages, failed ones left out, by ascending
    page number. *)
Theorem results_in_page_order :
  ∀ page_results page_results' pdf_name,
    page_results ≡ₚ page_results' →
    NoDup (wr_page_number <$> converted_of pdf_name page_results) →
    dict_get (sorted_pdf_results page_results) pdf_name
      = dict_get (sorted_pdf_results page_results') pdf_name
    ∧ (converted_of pdf_name page_results = [] →
       dict_get (sorted_pdf_results page_results) pdf_name = None)
    ∧ ∀ results,
        dict_get (sorted_pdf_results page_results) pdf_name = Some results →
        StronglySorted lt (wr_page_number <$> results)
        ∧ ∀ r, r ∈ results ↔
            r ∈ page_results ∧ wr_success r = true ∧ wr_pdf_name r = pdf_name.
Proof.
  intros rs rs' name Hperm Hnd.
  assert (Hconv : converted_of name rs ≡ₚ converted_of name rs').
  { unfold converted_of. rewrite Hperm. reflexivity. }
  unfold sorted_pdf_results. rewrite !dict_get_fmap_values, !dict_get_group_results.
  split; [|split].
  - destruct (converted_of name rs) as [|a l] eqn:H1;
      destruct (converted_of name rs') as [|b l'] eqn:H2.
    + reflexivity.
    + apply Permutation_nil_l in Hconv. discriminate.
    + apply Permutation_nil_r in Hconv. discriminate.
    + cbn [fmap option_fmap option_map]. f_equal.
      apply ascend_unique; try apply sort_by_page_ascend.
      * rewrite !sort_by_page_perm. exact Hconv.
      * rewrite sort_by_page_perm. exact Hnd.
  - intros ->. reflexivity.
  - intros results Hres.
    assert (Hsorted : results = sort_by_page (converted_of name rs)).
    { destruct (converted_of name rs); [discriminate|]. injection Hres as <-. reflexivity. }
    subst results. split.
    + apply ascend_strict; [apply sort_by_page_ascend|].
      rewrite sort_by_page_perm. exact Hnd.
    + intros r. rewrite sort_by_page_perm. unfold converted_of.
      rewrite list_elem_of_filter. tauto.
Qed.

Lemma results_in_page_order_witness :
  dict_get (sorted_pdf_results [ page_three; page_one ])
    (py "Jul_2025_Week2_7-7_-_7-11")
  = dict_get (sorted_pdf_results [ page_one; page_three ])
      (py "Jul_2025_Week2_7-7_-_7-11").
Proof.
  apply (results_in_page_order [ page_three; page_one ] [ page_one; page_three ]
           (py "Jul_2025_Week2_7-7_-_7-11")).
  - apply perm_swap.
  - by_vm.
Defined.

(** ** Replacement in strings *)

Lemma replace_char a b s :
  replace [a] [b] s = (λ c, if c =? a then b else c) <$> s.
Proof.
  unfold replace. induction s as [|c s IH]; [reflexivity|].
  cbn [replace_from startswith length Nat.sub fmap list_fmap].
  rewrite andb_true_r, N.eqb_sym.
  destruct (c =? a); cbn [app]; f_equal; exact IH.
Qed.

Lemma startswith_fmap (f : N → N) needle s :
  Forall (λ c, f c = c) needle →
  startswith needle s = true → startswith needle (f <$> s) = true.
Proof.
  intros Hfix. revert s. induction Hfix as [|x needle Hx _ IH]; intros s; [reflexivity|].
  destruct s as [|c s]; [discriminate|]. cbn [startswith fmap list_fmap].
  intros H. apply andb_prop in H as [Hc Hs]. apply N.eqb_eq in Hc. subst c.
  rewrite Hx, N.eqb_refl. apply IH, Hs.
Qed.

Lemma str_in_fmap (f : N → N) needle s :
  Forall (λ c, f c = c) needle →
  str_in needle s = true → str_in needle (f <$> s) = true.
Proof.
  intros Hfix. induction s as [|c s IH].
  - cbn [str_in fmap list_fmap]. rewrite !orb_false_r.
    apply (startswith_fmap f needle [] Hfix).
  - cbn [str_in]. intros H. apply orb_prop in H as [H|H].
    + pose proof (startswith_fmap f needle (c :: s) Hfix H) as H'.
      cbn [fmap list_fmap] in H' |- *. cbn [str_in]. rewrite H'. reflexivity.
    + cbn [fmap list_fmap str_in]. rewrite (IH H). apply orb_true_r.
Qed.

Lemma str_in_replace_char a b needle s :
  a ∉ needle →
  str_in needle s = true → str_in needle (replace [a] [b] s) = true.
Proof.
  intros Ha. rewrite replace_char. apply str_in_fmap.
  apply Forall_forall. intros c Hc.
  destruct (N.eqb_spec c a) as [->|_]; [contradiction|reflexivity].
Qed.

Lemma replace_from_skip old new pre s :
  replace_from old new (length pre) (pre ++ s) = replace_from old new 0 s.
Proof. induction pre as [|c pre IH]; [reflexivity|]. cbn [length app]. destruct s; exact IH. Qed.

Lemma replace_prefix old new s :
  old ≠ [] → replace old new (old ++ s) = new ++ replace old new s.
Proof.
  intros Hold. unfold replace. destruct old as [|x old]; [contradiction|].
  cbn [app replace_from].
  assert (Hs : startswith (x :: old) (x :: old ++ s) = true)
    by apply (startswith_app (x :: old) s).
  rewrite Hs. cbn [length Nat.sub]. rewrite Nat.sub_0_r, replace_from_skip. reflexivity.
Qed.

Lemma replace_absent old new s :
  str_in old s = false → replace old new s = s.
Proof.
  unfold replace. induction s as [|c s IH]; [reflexivity|].
  cbn [str_in replace_from]. intros H. apply orb_false_elim in H as [Hstart Hin].
  rewrite Hstart. f_equal. apply IH, Hin.
Qed.

(** ** Instruments *)

Section InstrumentProperties.

Variable str_lower : pystr → pystr.

(** X18: a subtitle that holds the label of the super-long bond future is
    classified as the mini-20-year future, before the label of the
    10-year future, which is a part of that label, is looked for. *)
Theorem super_long_label_first :
  ∀ subtitle,
    str_in (py "超長期国債先物") subtitle = true →
    extract_instrument_from_subtitle str_lower subtitle = Some (py "MINI20YEARJGBFUTURES")
    ∧ str_in (py "長期国債先物") subtitle = true.
Proof.
  intros subtitle Hin. split.
  - unfold extract_instrument_from_subtitle. cbv zeta.
    change (py "（") with [65288]. change (py "(") with [40].
    change (py "）") with [65289]. change (py ")") with [41].
    change (py "、") with [12289]. change (py ",") with [44].
    rewrite (str_in_replace_char 12289 44 (py "超長期国債先物"));
      [rewrite orb_true_r; reflexivity|compute_done|].
    apply str_in_replace_char; [compute_done|].
    apply str_in_replace_char; [compute_done|exact Hin].
  - revert Hin. change (py "超長期国債先物") with (36229 :: py "長期国債先物").
    induction subtitle as [|c s IH]; [discriminate|].
    cbn [str_in]. intros H. apply orb_prop in H as [H|H].
    + cbn [startswith] in H. apply andb_prop in H as [_ H].
      destruct s as [|c' s]; [discriminate|].
      cbn [str_in]. rewrite H. rewrite orb_true_r. reflexivity.
    + rewrite (IH H). apply orb_true_r.
Qed.

End InstrumentProperties.

Lemma super_long_label_first_witness :
  extract_instrument_from_subtitle ascii_only_lower (py "超長期国債先物（ミニ）")
    = Some (py "MINI20YEARJGBFUTURES")
  ∧ str_in (py "長期国債先物") (py "超長期国債先物（ミニ）") = true.
Proof.
  apply (super_long_label_first ascii_only_lower (py "超長期国債先物（ミニ）")).
  vm_compute. reflexivity.
Defined.

(** ** Reading a sheet *)

(** X19: the sheet whose cell A2 holds "Subtitle: " before a text free of
    that prefix is read with that text as its subtitle, and with the rows
    from row 6 whose first cell is truthy, in their order; a sheet that is
    not in the workbook, or a workbook that cannot be loaded, gives None. *)
Theorem read_excel_sheet_subtitle :
  ∀ file sheets sheet_name ws s,
    file_book file = Some sheets →
    dict_get sheets sheet_name = Some ws →
    ws_a2 ws = CStr (py "Subtitle: " ++ s) →
    str_in (py "Subtitle: ") s = false →
    read_excel_sheet file sheet_name
    = Some {| subtitle := s;
              data_rows := filter (λ row, Is_true (row_kept row)) (ws_rows ws) |}
    ∧ Forall (λ row, ∃ c, head row = Some c ∧ truthy c = true)
        (filter (λ row, Is_true (row_kept row)) (ws_rows ws))
    ∧ (∀ other, dict_get sheets other = None → read_excel_sheet file other = None)
    ∧ read_excel_sheet {| file_name := file_name file; file_book := None |} sheet_name
      = None.
Proof.
  intros file sheets name ws s Hbook Hws Ha2 Hfree.
  split; [|split; [|split]].
  - unfold read_excel_sheet. rewrite Hbook. cbn [mbind option_bind]. rewrite Hws.
    cbn [mbind option_bind]. rewrite Ha2.
    assert (Htruthy : truthy (CStr (py "Subtitle: " ++ s)) = true).
    { change (py "Subtitle: " ++ s) with (83 :: (py "ubtitle: " ++ s)).
      cbn [truthy]. rewrite bool_decide_eq_false_2 by discriminate. reflexivity. }
    unfold or_empty. rewrite Htruthy.
    rewrite replace_prefix by discriminate.
    rewrite (replace_absent _ _ s Hfree). reflexivity.
  - apply Forall_forall. intros row Hrow.
    apply list_elem_of_filter in Hrow as [Hkept _].
    destruct row as [|c row]; [contradiction|].
    exists c. split; [reflexivity|]. apply Is_true_true. exact Hkept.
  - intros other Hother. unfold read_excel_sheet. rewrite Hbook.
    cbn [mbind option_bind]. rewrite Hother. reflexivity.
  - reflexivity.
Qed.

Lemma read_excel_sheet_subtitle_witness :
  read_excel_sheet unnamed_file (py "P1_Table1_Main_Summary")
  = Some {| subtitle := py "JGB(10-year) Futures";
            data_rows := filter (λ row, Is_true (row_kept row))
                           (data_rows example_sheet) |}.
Proof.
  apply (read_excel_sheet_subtitle unnamed_file
           [ (py "P1_Table1_Main_Summary",
              {| ws_a2 := CStr (py "Subtitle: JGB(10-year) Futures");
                 ws_rows := data_rows example_sheet |}) ]
           (py "P1_Table1_Main_Summary")
           {| ws_a2 := CStr (py "Subtitle: JGB(10-year) Futures");
              ws_rows := data_rows example_sheet |}
           (py "JGB(10-year) Futures")).
  - reflexivity.
  - vm_compute. reflexivity.
  - vm_compute. reflexivity.
  - vm_compute. reflexivity.
Defined.

(** ** Names of the downloaded reports *)

Section FilenameProperties.

Variable unicode_isalnum : N → bool.

(** X20: the name made from a report label is a stem, a dot and the file
    type, and the stem holds only alphanumeric characters, dots,
    underscores and hyphens: no space, comma, slash or backslash. *)
Theorem generate_filename_characters :
  ∀ date_text file_type,
    ∃ stem,
      generate_filename unicode_isalnum date_text file_type
        = stem ++ py "." ++ file_type
      ∧ Forall (λ c, isalnum unicode_isalnum c = true ∨ c = 46 ∨ c = 95 ∨ c = 45) stem
      ∧ (32 ∉ stem) ∧ (44 ∉ stem) ∧ (47 ∉ stem) ∧ (92 ∉ stem).
Proof.
  intros date_text file_type. unfold generate_filename. cbv zeta.
  eexists. split; [reflexivity|].
  match goal with |- Forall _ (filter ?P ?l) ∧ _ => set (clean := l) end.
  assert (Hall : ∀ c, c ∈ filter (λ c, Is_true (isalnum unicode_isalnum c
                                                 || str_in [c] (py "._-"))) clean →
                   isalnum unicode_isalnum c = true ∨ c = 46 ∨ c = 95 ∨ c = 45).
  { intros c Hc. apply list_elem_of_filter in Hc as [Hc _].
    apply Is_true_true, orb_prop in Hc as [Hc|Hc]; [left; exact Hc|right].
    change (py "._-") with [46; 95; 45] in Hc.
    cbn [str_in startswith] in Hc. rewrite !andb_true_r, !orb_false_r in Hc.
    repeat (apply orb_prop in Hc as [Hc|Hc]); apply N.eqb_eq in Hc; auto. }
  split; [apply Forall_forall, Hall|].
  repeat split; intros Hin; apply Hall in Hin as [Hin|[Hin|[Hin|Hin]]];
    (discriminate Hin || (vm_compute in Hin; discriminate Hin)).
Qed.

End FilenameProperties.

(** ** The pages of a run of the scraper *)

Section ScrapeProperties.

Variable entry : Type.
Variable world : Type.
Variable scrape_page : world → pystr → pystr → world * list entry.

Lemma urls_to_visit_targeted target_year archive_urls urls :
  urls_to_visit (Some (py "targeted")) target_year archive_urls = Some urls →
  (0 < length urls ≤ 2)%nat
  ∧ ∀ k u, (k, u) ∈ urls →
      dict_get archive_urls k = Some u ∧ (k = py "Current" ∨ target_year = Some k).
Proof.
  unfold urls_to_visit.
  rewrite (bool_decide_eq_true_2 (Some (py "targeted") = Some (py "targeted")))
    by reflexivity.
  cbv zeta.
  destruct (dict_get archive_urls (py "Current")) as [cur|] eqn:Hcur;
    destruct target_year as [year|];
    try destruct (dict_get archive_urls year) as [yurl|] eqn:Hyear;
    cbn [dict_set]; try case_bool_decide; try discriminate;
    intros [= <-]; (split; [cbn [length]; lia|]); intros k u Hin;
    repeat (apply elem_of_cons in Hin as [[= -> ->]|Hin]);
    try (inversion Hin; fail); subst; auto.
Qed.

Lemma visit_pages_targeted urls w visits final :
  visit_pages scrape_page true urls w [] = (visits, final) →
  visits.*1 `prefix_of` urls.*1
  ∧ final.2 = concat visits.*2
  ∧ ∀ i k added, visits !! i = Some (k, added) → (S i < length visits)%nat →
      added = [].
Proof.
  revert w visits final. induction urls as [|[k u] urls IH]; intros w visits final.
  - cbn [visit_pages]. intros [= <- <-]. split; [reflexivity|]. split; [reflexivity|].
    intros i k added Hi. inversion Hi.
  - cbn [visit_pages]. destruct (scrape_page w k u) as [w' added] eqn:Hvisit.
    cbv zeta. cbn [app andb]. case_bool_decide as Hlen.
    + cbn [negb].
      destruct (visit_pages scrape_page true urls w' added)
        as [visits' final'] eqn:Hrest.
      intros [= <- <-].
      assert (Hnil : added = []) by (destruct added; [reflexivity|discriminate]).
      subst added. destruct (IH _ _ _ Hrest) as (Hpre & Hfinal & Hempty).
      split; [rewrite !fmap_cons; apply prefix_cons, Hpre|].
      split; [rewrite fmap_cons; exact Hfinal|].
      intros [|i] k' added' Hi Hlt.
      * injection Hi as <- <-. reflexivity.
      * apply (Hempty i k' added' Hi). cbn [length] in Hlt. lia.
    + cbn [negb]. intros [= <- <-]. split; [|split].
      * rewrite !fmap_cons. exists (urls.*1). reflexivity.
      * cbn. rewrite app_nil_r. reflexivity.
      * intros i k' added' _ Hlt. cbn [length] in Hlt. lia.
Qed.

(** X21: a targeted run visits at most two pages, the Current page or the
    page of the target year, each a page of the archive, and it visits no
    page after one whose visit added a report, so that all it has
    downloaded comes from the last page visited; it returns without a visit
    exactly when the archive has neither page. *)
Theorem targeted_run_pages :
  ∀ target_year archive_urls w,
    (run_complete_scrape scrape_page (Some (py "targeted")) target_year archive_urls w
       = None
     ↔ dict_get archive_urls (py "Current") = None
       ∧ ∀ year, target_year = Some year → dict_get archive_urls year = None)
    ∧ ∀ visits w' all_data,
        run_complete_scrape scrape_page (Some (py "targeted")) target_year archive_urls w
          = Some (visits, (w', all_data)) →
        (length visits ≤ 2)%nat
        ∧ all_data = concat visits.*2
        ∧ ∀ i k added, visits !! i = Some (k, added) →
            (k = py "Current" ∨ target_year = Some k)
            ∧ is_Some (dict_get archive_urls k)
            ∧ ((S i < length visits)%nat → added = []).
Proof.
  intros target_year archive_urls w. split.
  - unfold run_complete_scrape.
    destruct (urls_to_visit _ target_year archive_urls) as [urls|] eqn:Hurls.
    + cbn [mbind option_bind]. split; [discriminate|].
      intros [Hcur Hyear]. exfalso.
      destruct (urls_to_visit_targeted _ _ _ Hurls) as [Hlen Hin].
      destruct urls as [|[k u] urls]; [cbn [length] in Hlen; lia|].
      destruct (Hin k u (list_elem_of_here _ _)) as [Hget [->|Hk]].
      * congruence.
      * rewrite (Hyear k Hk) in Hget. discriminate.
    + cbn [mbind option_bind]. split; [intros _|reflexivity].
      revert Hurls. unfold urls_to_visit.
      rewrite (bool_decide_eq_true_2 (Some (py "targeted") = Some (py "targeted")))
        by reflexivity.
      cbv zeta.
      destruct (dict_get archive_urls (py "Current")) as [cur|];
        destruct target_year as [year|];
        try destruct (dict_get archive_urls year) as [yurl|] eqn:Hyear;
        cbn [dict_set]; try case_bool_decide; try discriminate; intros _;
        (split; [reflexivity|]); intros y [= <-]; try exact Hyear.
  - intros visits w' all_data. unfold run_complete_scrape.
    destruct (urls_to_visit _ target_year archive_urls) as [urls|] eqn:Hurls;
      [|discriminate].
    cbn [mbind option_bind].
    rewrite (bool_decide_eq_true_2 (Some (py "targeted") = Some (py "targeted")))
      by reflexivity.
    intros [= Hvisit].
    destruct (urls_to_visit_targeted _ _ _ Hurls) as [Hlen Hin].
    destruct (visit_pages_targeted _ _ _ _ Hvisit) as (Hpre & Hfinal & Hempty).
    split; [|split].
    + apply prefix_length in Hpre. rewrite !length_fmap in Hpre. lia.
    + exact Hfinal.
    + intros i k added Hk.
      assert (Hlook : urls.*1 !! i = Some k).
      { eapply prefix_lookup_Some; [|exact Hpre].
        rewrite list_lookup_fmap, Hk. reflexivity. }
      apply list_lookup_fmap_Some in Hlook as ([k' u] & Hkk & Hlook). cbn [fst] in Hkk.
      subst k'.
      destruct (Hin k u) as [Hget Hwhich]; [eapply list_elem_of_lookup_2, Hlook|].
      split; [exact Hwhich|]. split; [exists u; exact Hget|].
      intros Hlt. eapply Hempty; eauto.
Qed.

End ScrapeProperties.

(** ** Names of the documents *)

Lemma rfind_None c s : c ∉ s → rfind c s = None.
Proof.
  induction s as [|x s IH]; [reflexivity|]. intros Hc.
  apply not_elem_of_cons in Hc as [Hx Hs]. cbn [rfind]. rewrite (IH Hs).
  destruct (N.eqb_spec x c); congruence.
Qed.

Lemma rfind_last c s ext : c ∉ ext → rfind c (s ++ c :: ext) = Some (length s).
Proof.
  intros Hc. induction s as [|x s IH].
  - cbn [app rfind length]. rewrite (rfind_None _ _ Hc), N.eqb_refl. reflexivity.
  - cbn [app rfind length]. rewrite IH. reflexivity.
Qed.

Lemma path_stem_suffix s ext :
  s ≠ [] → ext ≠ [] → 46 ∉ ext → path_stem (s ++ 46 :: ext) = s.
Proof.
  intros Hs He Hdot. unfold path_stem. rewrite (rfind_last _ _ _ Hdot).
  assert (0 < length s)%nat by (destruct s; [congruence|cbn; lia]).
  assert (0 < length ext)%nat by (destruct ext; [congruence|cbn; lia]).
  rewrite length_app. cbn [length].
  destruct (Nat.ltb_spec 0 (length s)); [|lia].
  destruct (Nat.ltb_spec (length s) (length s + S (length ext) - 1)); [|lia].
  cbn [andb]. rewrite take_app_length. reflexivity.
Qed.

Lemma path_stem_nonempty name : name ≠ [] → path_stem name ≠ [].
Proof.
  intros Hn. unfold path_stem. destruct (rfind 46 name) as [i|]; [|exact Hn].
  destruct (Nat.ltb_spec 0 i); cbn [andb]; [|exact Hn].
  destruct (i <? length name - 1)%nat; [|exact Hn].
  destruct name; [congruence|]. destruct i; [lia|]. discriminate.
Qed.

(** X22: the workbook made from a PDF carries the stem of the PDF. *)
Theorem excel_name_keeps_stem :
  ∀ pdf_file_name,
    pdf_file_name ≠ [] →
    path_stem (excel_name (combined_docx_name pdf_file_name))
      = path_stem pdf_file_name.
Proof.
  intros name Hn. pose proof (path_stem_nonempty name Hn) as Hs.
  unfold excel_name, combined_docx_name.
  change (py ".docx") with (46 :: py "docx").
  change (py ".xlsx") with (46 :: py "xlsx").
  rewrite (path_stem_suffix _ (py "docx")); [|exact Hs|by_vm|by_vm].
  apply path_stem_suffix; [exact Hs|by_vm|by_vm].
Qed.

Lemma excel_name_keeps_stem_witness :
  path_stem (excel_name (combined_docx_name (py "Jul_2025_Week2_7-7_-_7-11.pdf")))
  = path_stem (py "Jul_2025_Week2_7-7_-_7-11.pdf").
Proof.
  apply (excel_name_keeps_stem (py "Jul_2025_Week2_7-7_-_7-11.pdf")).
  vm_compute. discriminate.
Defined.
